(** * Wakapi schema migrations: the two drop migrations and their start-up gate

    A shallow embedding of
      - [src/migrations/202203191_drop_diagnostics_user.go]
      - the sibling migration [20221016-drop_rank_column]
      - the migration gate of [main] in [src/main.go]
    over an explicit database state.  Every call a migration body makes on
    the database handle (ledger consult, gorm [Migrator] predicate, DDL
    statement, log line) is threaded through a small state monad that also
    records the call in a trace, so that "is never evaluated", "is attempted
    before" and "is still attempted" are statements about that trace. *)

From stdpp Require Import base option gmap strings list pretty.

Local Open Scope string_scope.
Local Open Scope list_scope.

(** ** Data model *)

(** A Go [error], kept as the text its [%v] rendering gives. [None] is [nil]. *)
Definition Error : Type := string.

(** The entity structs handed to the migrator ([&models.Diagnostics{}],
    [&models.LeaderboardItem{}]); they are opaque schema targets. *)
Inductive Model : Type :=
| Diagnostics
| LeaderboardItem.

#[global] Instance Model_eq_dec : EqDecision Model.
Proof. solve_decision. Defined.

(** logbuch levels used by the migrations. *)
Inductive Level : Type :=
| Info
| Warn.

#[global] Instance Level_eq_dec : EqDecision Level.
Proof. solve_decision. Defined.

(** The part of [config.Config] the migration pass looks at. *)
Record Config : Type := mkConfig {
  SkipMigrations : bool
}.

(** gorm's [Migrator] interface, restricted to the methods the two
    migrations and the additive sync call.  The schema state [S] and the
    behaviour of each method belong to the database driver: a DDL statement
    returns the new schema together with its [error]. *)
Class Migrator (S : Type) : Type := {
  HasTable : Model → S → bool;
  HasColumn : Model → string → S → bool;
  HasConstraint : Model → string → S → bool;
  DropConstraint : Model → string → S → S * option Error;
  DropColumn : Model → string → S → S * option Error;
  AutoMigrate : S → S * option Error
}.

(** The states of the Runner (spec 4.5). *)
Inductive RunnerState : Type :=
| Idle
| RunningPre
| SyncingSchema
| RunningPost
| Done.

#[global] Instance RunnerState_eq_dec : EqDecision RunnerState.
Proof. solve_decision. Defined.

(** Everything a run can do to the outside world, in the order it did it.
    Calls carry what they returned. *)
Inductive Event : Type :=
| EvLedgerRead (name : string) (res : Error + bool)
| EvLedgerWrite (name : string) (err : option Error)
| EvHasTable (m : Model) (res : bool)
| EvHasColumn (m : Model) (col : string) (res : bool)
| EvHasConstraint (m : Model) (cname : string) (res : bool)
| EvDropConstraint (m : Model) (cname : string) (err : option Error)
| EvDropColumn (m : Model) (col : string) (err : option Error)
| EvAutoMigrate (err : option Error)
| EvPhase (st : RunnerState)
| EvInvoke (name : string)
| EvLog (lvl : Level) (msg : string).

#[global] Instance Event_eq_dec : EqDecision Event.
Proof. solve_decision. Defined.


Definition is_mutation (e : Event) : bool :=
  match e with
  | EvDropConstraint _ _ _ | EvDropColumn _ _ _ => true
  | _ => false
  end.

Definition is_ledger (e : Event) : bool :=
  match e with
  | EvLedgerRead _ _ | EvLedgerWrite _ _ => true
  | _ => false
  end.

Definition is_has_constraint (e : Event) : bool :=
  match e with
  | EvHasConstraint _ _ _ => true
  | _ => false
  end.


Definition is_log (e : Event) : bool :=
  match e with
  | EvLog _ _ => true
  | _ => false
  end.


(** A database call that came back with an error. *)
Definition failed (e : Event) : bool :=
  match e with
  | EvLedgerRead _ (inl _) => true
  | EvLedgerWrite _ (Some _) => true
  | EvDropConstraint _ _ (Some _) => true
  | EvDropColumn _ _ (Some _) => true
  | EvAutoMigrate (Some _) => true
  | _ => false
  end.

Definition is_warning (e : Event) : bool :=
  match e with
  | EvLog Warn _ => true
  | _ => false
  end.

(** [quiet p t]: no event of the trace satisfies [p]. *)
Definition quiet (p : Event → bool) (t : list Event) : bool :=
  forallb (λ e, negb (p e)) t.

(** Every failed call of the trace is immediately followed by a warning. *)
Fixpoint failures_logged (t : list Event) : bool :=
  match t with
  | [] => true
  | e :: rest =>
      (if failed e then
         match rest with
         | e' :: _ => is_warning e'
         | [] => false
         end
       else true) && failures_logged rest
  end.

(** ** The database and the effect monad *)

Section Engine.

Context {S : Type} `{!Migrator S}.

(** The state behind a [*gorm.DB] handle: the schema, the ledger and the
    wall clock.  [ledger = None] is a database in which the ledger's backing
    table does not exist (yet). *)
Record World : Type := mkWorld {
  schema : S;
  ledger : option (gmap string nat);
  now : nat
}.

Definition set_schema (s : S) (w : World) : World :=
  mkWorld s (ledger w) (now w).

Definition set_ledger (l : option (gmap string nat)) (w : World) : World :=
  mkWorld (schema w) l (now w).

(** A computation on the handle: result, new state, calls made. *)
Definition M (A : Type) : Type := World → A * World * list Event.

#[local] Instance M_ret : MRet M := λ A a w, (a, w, []).

#[local] Instance M_bind : MBind M := λ A B k c w,
  let '(a, w1, t1) := c w in
  let '(b, w2, t2) := k a w1 in
  (b, w2, t1 ++ t2).

Definition result {A} (r : A * World * list Event) : A := r.1.1.
Definition final {A} (r : A * World * list Event) : World := r.1.2.
Definition trace {A} (r : A * World * list Event) : list Event := r.2.

(** [a && b] of Go on two calls: [b] is made only when [a] returned true. *)
Definition andM (a b : M bool) : M bool :=
  x ← a; if (x : bool) then b else mret false.

(** Primitive calls. *)
Definition log (lvl : Level) (msg : string) : M unit :=
  λ w, (tt, w, [EvLog lvl msg]).

Definition hasTable (m : Model) : M bool :=
  λ w, let r := HasTable m (schema w) in (r, w, [EvHasTable m r]).

Definition hasColumn (m : Model) (col : string) : M bool :=
  λ w, let r := HasColumn m col (schema w) in (r, w, [EvHasColumn m col r]).

Definition hasConstraint (m : Model) (cname : string) : M bool :=
  λ w, let r := HasConstraint m cname (schema w) in
       (r, w, [EvHasConstraint m cname r]).

Definition dropConstraint (m : Model) (cname : string) : M (option Error) :=
  λ w, let '(s, err) := DropConstraint m cname (schema w) in
       (err, set_schema s w, [EvDropConstraint m cname err]).

Definition dropColumn (m : Model) (col : string) : M (option Error) :=
  λ w, let '(s, err) := DropColumn m col (schema w) in
       (err, set_schema s w, [EvDropColumn m col err]).

(** ** Ledger *)

Definition no_ledger_table : Error := "ledger table does not exist".

(** Modelled from the spec: the ledger store behind [hasRun] and
    [setHasRun], which are not among the sources.  Spec 3 and 6: one row per
    completed migration, keyed by name, holding the completion time, in a
    table of the database being migrated.  A row lookup and a row upsert both
    fail when that table is missing; the upsert takes the current time. *)
Definition ledger_find (name : string) : M (Error + bool) :=
  λ w, let r := match ledger w with
                | Some l => inr (bool_decide (is_Some (l !! name)))
                | None => inl no_ledger_table
                end in
       (r, w, [EvLedgerRead name r]).

Definition ledger_put (name : string) : M (option Error) :=
  λ w, match ledger w with
       | Some l =>
           (None, set_ledger (Some (<[name := now w]> l)) w,
            [EvLedgerWrite name None])
       | None =>
           (Some no_ledger_table, w, [EvLedgerWrite name (Some no_ledger_table)])
       end.

(** Modelled from the spec: the helper [hasRun] of the migrations package
    is not among the sources.  Spec 4.1 and 7: [hasCompleted(name)] is true
    iff a record with that name exists; it is safe to call before the
    ledger's backing table exists; a read failure is logged as a warning and
    treated as "not completed". *)
Definition hasRun (name : string) : M bool :=
  r ← ledger_find name;
  match r with
  | inr found => mret found
  | inl e =>
      log Warn ("failed to look up migration '" +:+ name +:+ "' (" +:+ e +:+ ")");;
      mret false
  end.

(** Modelled from the spec: the helper [setHasRun] of the migrations
    package is not among the sources.  Spec 4.1 and 7: [markCompleted(name)]
    inserts or updates the record for [name] with the current timestamp; a
    failure to persist it is logged as a warning and nothing is propagated. *)
Definition setHasRun (name : string) : M unit :=
  err ← ledger_put name;
  match err with
  | Some e =>
      log Warn ("failed to mark migration '" +:+ name +:+ "' as run (" +:+ e +:+ ")")
  | None => mret tt
  end.

(** The ledger records [name]. *)
Definition recorded (name : string) (w : World) : bool :=
  match ledger w with
  | Some l => bool_decide (is_Some (l !! name))
  | None => false
  end.

(** ** The migrations *)

(** [migrationFunc] of the migrations package: a name and a body. *)
Record migrationFunc : Type := mkMigration {
  name : string;
  f : Config → M (option Error)
}.

Definition drop_diagnostics_user_name : string :=
  "202203191-drop_diagnostics_user".

(** The closure of [init] in [202203191_drop_diagnostics_user.go]. *)
Definition drop_diagnostics_user_f (cfg : Config) : M (option Error) :=
  done ← hasRun drop_diagnostics_user_name;
  if (done : bool) then mret None
  else
    present ← hasColumn Diagnostics "user_id";
    (if (present : bool) then
       log Info ("running migration '" +:+ drop_diagnostics_user_name +:+ "'");;
       err ← dropConstraint Diagnostics "fk_diagnostics_user";
       match err with
       | Some e =>
           log Warn ("failed to drop 'fk_diagnostics_user' constraint (" +:+ e +:+ ")")
       | None => mret tt
       end;;
       err ← dropColumn Diagnostics "user_id";
       match err with
       | Some e =>
           log Warn ("failed to drop user_id column of diagnostics (" +:+ e +:+ ")")
       | None => mret tt
       end
     else mret tt);;
    setHasRun drop_diagnostics_user_name;;
    mret None.

Definition drop_diagnostics_user : migrationFunc :=
  mkMigration drop_diagnostics_user_name drop_diagnostics_user_f.

Definition drop_rank_column_name : string := "20221016-drop_rank_column".

(** The closure of [init] in the drop-rank-column migration file. *)
Definition drop_rank_column_f (cfg : Config) : M (option Error) :=
  done ← hasRun drop_rank_column_name;
  if (done : bool) then mret None
  else
    guard ← andM (hasTable LeaderboardItem) (hasColumn LeaderboardItem "rank");
    (if (guard : bool) then
       log Info ("running migration '" +:+ drop_rank_column_name +:+ "'");;
       err ← dropColumn LeaderboardItem "rank";
       match err with
       | Some e => log Warn ("failed to drop 'rank' column (" +:+ e +:+ ")")
       | None => mret tt
       end
     else mret tt);;
    setHasRun drop_rank_column_name;;
    mret None.

Definition drop_rank_column : migrationFunc :=
  mkMigration drop_rank_column_name drop_rank_column_f.

(** ** Registry *)

(** The two package-level slices of the migrations package. *)
Record Registry : Type := mkRegistry {
  preMigrations : list migrationFunc;
  postMigrations : list migrationFunc
}.

Definition empty_registry : Registry := mkRegistry [] [].

(** Modelled from the spec: [registerPreMigration] and
    [registerPostMigration] of the migrations package are not among the
    sources.  Spec 4.4: each appends to its ordered sequence; no sorting, no
    deduplication. *)
Definition registerPreMigration (m : migrationFunc) (r : Registry) : Registry :=
  mkRegistry (preMigrations r ++ [m]) (postMigrations r).

Definition registerPostMigration (m : migrationFunc) (r : Registry) : Registry :=
  mkRegistry (preMigrations r) (postMigrations r ++ [m]).

(** The last statement of each [init]: both files call
    [registerPostMigration(f)]. *)
Definition init_drop_diagnostics_user (r : Registry) : Registry :=
  registerPostMigration drop_diagnostics_user r.

Definition init_drop_rank_column (r : Registry) : Registry :=
  registerPostMigration drop_rank_column r.

(** Package initialisation runs the [init] functions file by file, in file
    name order: [202203191_...] sorts before [20221016_...]. *)
Definition registry : Registry :=
  init_drop_rank_column (init_drop_diagnostics_user empty_registry).

(** ** Runner *)

(** Modelled from the spec: the additive schema sync is an external step
    (spec 1, 4.5 step 3).  It creates what is missing for the currently known
    entities and removes nothing; the ledger's backing table is a table of
    the same database (spec 6), so a sync that succeeds leaves it in place,
    empty if it was missing. *)
Definition autoMigrate : M (option Error) :=
  λ w, let '(s, err) := AutoMigrate (schema w) in
       let l := match err with
                | None => Some (default ∅ (ledger w))
                | Some _ => ledger w
                end in
       (err, mkWorld s l (now w), [EvAutoMigrate err]).

Definition syncSchema : M unit :=
  err ← autoMigrate;
  match err with
  | Some e => log Warn ("schema sync failed (" +:+ e +:+ ")")
  | None => mret tt
  end.

Definition enter (st : RunnerState) : M unit :=
  λ w, (tt, w, [EvPhase st]).

(** Modelled from the spec: the Runner's loop body is not among the
    sources.  Spec 4.5 and 7: invoke [execute], log the outcome; nothing a
    body returns is passed on. *)
Definition runMigration (cfg : Config) (m : migrationFunc) : M unit :=
  (λ w, (tt, w, [EvInvoke (name m)]));;
  err ← f m cfg;
  match err with
  | Some e => log Warn (("migration '" +:+ name m +:+ "' failed (") +:+ e +:+ ")")
  | None => mret tt
  end.

Fixpoint runAll (cfg : Config) (ms : list migrationFunc) : M unit :=
  match ms with
  | [] => mret tt
  | m :: rest => runMigration cfg m;; runAll cfg rest
  end.

(** Modelled from the spec: [migrations.Run] is not among the sources;
    only its call in [main] is.  Spec 4.5 steps 2 to 4: the pre-phase list in
    order, the additive sync once, the post-phase list in order; nothing is
    returned.  Step 1, the global switch, belongs to the caller. *)
Definition Run (reg : Registry) (cfg : Config) : M unit :=
  enter RunningPre;;
  runAll cfg (preMigrations reg);;
  enter SyncingSchema;;
  syncSchema;;
  enter RunningPost;;
  runAll cfg (postMigrations reg);;
  enter Done.

(** [main], the lines under "Migrate database schema":
    [if !config.SkipMigrations { migrations.Run(db, config) }]. *)
Definition main_migrate (reg : Registry) (cfg : Config) : M unit :=
  if negb (SkipMigrations cfg) then Run reg cfg else mret tt.

(** ** Descriptions of a run, used to state what a body did *)

(** The calls [hasRun] makes. *)
Definition read_trace (n : string) (w : World) : list Event :=
  match ledger w with
  | Some l => [EvLedgerRead n (inr (bool_decide (is_Some (l !! n))))]
  | None =>
      [EvLedgerRead n (inl no_ledger_table);
       EvLog Warn ("failed to look up migration '" +:+ n +:+ "' (" +:+
                   no_ledger_table +:+ ")")]
  end.

(** The calls [setHasRun] makes, and the state it leaves. *)
Definition write_trace (n : string) (w : World) : list Event :=
  match ledger w with
  | Some _ => [EvLedgerWrite n None]
  | None =>
      [EvLedgerWrite n (Some no_ledger_table);
       EvLog Warn ("failed to mark migration '" +:+ n +:+ "' as run (" +:+
                   no_ledger_table +:+ ")")]
  end.

Definition mark (n : string) (w : World) : World :=
  match ledger w with
  | Some l => set_ledger (Some (<[n := now w]> l)) w
  | None => w
  end.

(** The warning a failed sub-step leaves, if it failed. *)
Definition warning (pre : string) (err : option Error) : list Event :=
  match err with
  | Some e => [EvLog Warn (pre +:+ e +:+ ")")]
  | None => []
  end.

(** The calls the guard [HasTable(..) && HasColumn(.., "rank")] makes. *)
Definition rank_guard_trace (w : World) : list Event :=
  EvHasTable LeaderboardItem (HasTable LeaderboardItem (schema w))
  :: (if HasTable LeaderboardItem (schema w)
      then [EvHasColumn LeaderboardItem "rank"
              (HasColumn LeaderboardItem "rank" (schema w))]
      else []).

Definition rank_guard (w : World) : bool :=
  HasTable LeaderboardItem (schema w) && HasColumn LeaderboardItem "rank" (schema w).

(** Every migration of a registry, pre-phase first. *)
Definition all_migrations (reg : Registry) : list migrationFunc :=
  preMigrations reg ++ postMigrations reg.

End Engine.

Arguments World : clear implicits.
Arguments M : clear implicits.
Arguments migrationFunc : clear implicits.
Arguments Registry : clear implicits.

(** ** Outcomes *)

(** The result vocabulary of spec 4.3. *)
Inductive Result : Type :=
| Skipped
| Applied
| AppliedWithWarnings (errs : list Error)
| NoopGuardFalse.

#[global] Instance Result_eq_dec : EqDecision Result.
Proof. solve_decision. Defined.

Definition mutation_error (e : Event) : option Error :=
  match e with
  | EvDropConstraint _ _ err | EvDropColumn _ _ err => err
  | _ => None
  end.

Definition mutation_errors (t : list Event) : list Error :=
  omap mutation_error t.

(** Modelled from the spec: the Go bodies return a bare [error], so the
    outcome of spec 4.3 (steps 1 to 3) is read off the calls of a run.
    [Skipped] when the ledger answered "completed"; [NoopGuardFalse] when no
    mutation was attempted; otherwise [Applied], or [AppliedWithWarnings]
    with the errors of the sub-steps that failed. *)
Definition outcome (t : list Event) : Result :=
  match t with
  | EvLedgerRead _ (inr true) :: _ => Skipped
  | _ =>
      if quiet is_mutation t then NoopGuardFalse
      else match mutation_errors t with
           | [] => Applied
           | errs => AppliedWithWarnings errs
           end
  end.

(** ** An in-memory database *)

(** A small driver for the [Migrator] interface, used to run the migrations
    on concrete databases: tables by name, each with its columns and its
    named constraints.  A drop fails when its target is not there. *)
Record Table : Type := mkTable {
  columns : gset string;
  constraints : gset string
}.

Definition tableName (m : Model) : string :=
  match m with
  | Diagnostics => "diagnostics"
  | LeaderboardItem => "leaderboard_items"
  end.

Definition mem_HasTable (m : Model) (s : gmap string Table) : bool :=
  bool_decide (is_Some (s !! tableName m)).

Definition mem_HasColumn (m : Model) (col : string) (s : gmap string Table) : bool :=
  match s !! tableName m with
  | Some t => bool_decide (col ∈ columns t)
  | None => false
  end.

Definition mem_HasConstraint (m : Model) (cname : string) (s : gmap string Table) : bool :=
  match s !! tableName m with
  | Some t => bool_decide (cname ∈ constraints t)
  | None => false
  end.

Definition mem_DropConstraint (m : Model) (cname : string) (s : gmap string Table)
  : gmap string Table * option Error :=
  match s !! tableName m with
  | Some t =>
      if bool_decide (cname ∈ constraints t)
      then (<[tableName m := mkTable (columns t) (constraints t ∖ {[cname]})]> s, None)
      else (s, Some ("constraint " +:+ cname +:+ " does not exist"))
  | None => (s, Some ("table " +:+ tableName m +:+ " does not exist"))
  end.

Definition mem_DropColumn (m : Model) (col : string) (s : gmap string Table)
  : gmap string Table * option Error :=
  match s !! tableName m with
  | Some t =>
      if bool_decide (col ∈ columns t)
      then (<[tableName m := mkTable (columns t ∖ {[col]}) (constraints t)]> s, None)
      else (s, Some ("column " +:+ col +:+ " does not exist"))
  | None => (s, Some ("table " +:+ tableName m +:+ " does not exist"))
  end.

(** The current entity definitions the sync builds from: neither has the
    legacy column. *)
Definition current_entities : list (string * gset string) :=
  [ ("diagnostics", {[ "id"; "platform" ]});
    ("leaderboard_items", {[ "id"; "user_id"; "score" ]}) ].

Definition mem_sync_entity (s : gmap string Table) (e : string * gset string)
  : gmap string Table :=
  match s !! e.1 with
  | Some t => <[e.1 := mkTable (columns t ∪ e.2) (constraints t)]> s
  | None => <[e.1 := mkTable e.2 ∅]> s
  end.

Definition mem_AutoMigrate (s : gmap string Table) : gmap string Table * option Error :=
  (foldl mem_sync_entity s current_entities, None).

#[global] Instance mem_Migrator : Migrator (gmap string Table) := {
  HasTable := mem_HasTable;
  HasColumn := mem_HasColumn;
  HasConstraint := mem_HasConstraint;
  DropConstraint := mem_DropConstraint;
  DropColumn := mem_DropColumn;
  AutoMigrate := mem_AutoMigrate
}.

Definition diagnostics_table (cols cons : gset string) : gmap string Table :=
  {[ "diagnostics" := mkTable cols cons ]}.

(** Concrete databases. *)

(** Nothing at all: no tables, no ledger table. *)
Definition db_empty : World (gmap string Table) :=
  mkWorld ∅ None 100.

(** An upgraded database: legacy [user_id] column and its foreign key. *)
Definition db_legacy : World (gmap string Table) :=
  mkWorld (diagnostics_table {[ "id"; "user_id" ]} {[ "fk_diagnostics_user" ]})
          (Some ∅) 100.

(** Scenario C: the column is there, the constraint was removed by hand. *)
Definition db_no_fk : World (gmap string Table) :=
  mkWorld (diagnostics_table {[ "id"; "user_id" ]} ∅) (Some ∅) 100.


(** Scenario B: a [rank] column on the leaderboard table. *)
Definition db_rank : World (gmap string Table) :=
  mkWorld {[ "leaderboard_items" := mkTable {[ "id"; "rank" ]} ∅ ]} (Some ∅) 100.

(** A database on which drop-diagnostics-user already ran. *)
Definition db_done : World (gmap string Table) :=
  mkWorld (diagnostics_table {[ "id" ]} ∅)
          (Some {[ drop_diagnostics_user_name := 42 ]}) 100.

Definition cfg0 : Config := mkConfig false.

Definition cfg_skip : Config := mkConfig true.

(** The same kind of database opened read-only: it answers every question
    and refuses every statement that would change it. *)
Definition read_only : Error := "attempt to write a readonly database".

Definition ro_Migrator : Migrator (gmap string Table) := {|
  HasTable := mem_HasTable;
  HasColumn := mem_HasColumn;
  HasConstraint := mem_HasConstraint;
  DropConstraint := λ _ _ s, (s, Some read_only);
  DropColumn := λ _ _ s, (s, Some read_only);
  AutoMigrate := λ s, (s, Some read_only)
|}.


(** ** Footprint of a run *)

(** The entity a Migrator call is made on. *)
Definition event_model (e : Event) : option Model :=
  match e with
  | EvHasTable m _ | EvHasColumn m _ _ | EvHasConstraint m _ _
  | EvDropConstraint m _ _ | EvDropColumn m _ _ => Some m
  | _ => None
  end.

(** The column or constraint a Migrator call names, if it names one. *)
Definition event_target (e : Event) : option string :=
  match e with
  | EvHasColumn _ c _ | EvHasConstraint _ c _
  | EvDropConstraint _ c _ | EvDropColumn _ c _ => Some c
  | _ => None
  end.

(** The ledger key a ledger call is made for. *)
Definition event_key (e : Event) : option string :=
  match e with
  | EvLedgerRead n _ | EvLedgerWrite n _ => Some n
  | _ => None
  end.

(** [only_on m names t]: every Migrator call of [t] is made on entity [m]
    and names nothing outside [names]. *)
Definition only_on (m : Model) (names : list string) (t : list Event) : bool :=
  forallb (λ e,
    match event_model e with
    | Some m' =>
        bool_decide (m' = m)
        && match event_target e with
           | Some c => bool_decide (c ∈ names)
           | None => true
           end
    | None => true
    end) t.

(** [only_key n t]: every ledger call of [t] is made for key [n]. *)
Definition only_key (n : string) (t : list Event) : bool :=
  forallb (λ e,
    match event_key e with
    | Some n' => bool_decide (n' = n)
    | None => true
    end) t.

Definition is_info (e : Event) : bool :=
  match e with
  | EvLog Info _ => true
  | _ => false
  end.

Definition is_has_table (e : Event) : bool :=
  match e with
  | EvHasTable _ _ => true
  | _ => false
  end.

Definition is_ledger_read (e : Event) : bool :=
  match e with
  | EvLedgerRead _ _ => true
  | _ => false
  end.

Definition is_drop_of_constraint (e : Event) : bool :=
  match e with
  | EvDropConstraint _ _ _ => true
  | _ => false
  end.

(** ** [listen]: the listeners of the process *)

(** The [Server] section of [config.Config], the fields [listen] reads.
    [Port] is what [strconv.Itoa] is applied to, [TimeoutSec] what
    [time.Duration] is applied to. *)
Record serverConfig : Type := mkServerConfig {
  Port : Z;
  ListenIpV4 : string;
  ListenIpV6 : string;
  ListenSocket : string;
  ListenSocketMode : Z;
  TimeoutSec : Z;
  TlsCertPath : string;
  TlsKeyPath : string
}.

(** [strconv.Itoa]. *)
Definition Itoa (n : Z) : string := pretty n.

(** A 64-bit signed integer with its wrap-around. *)
Definition int64 (z : Z) : Z := (z + 2 ^ 63) `mod` 2 ^ 64 - 2 ^ 63.

(** [time.Second], in nanoseconds. *)
Definition Second : Z := 1000000000.

(** [time.Duration(n) * time.Second]. *)
Definition seconds (n : Z) : Z := int64 (int64 n * Second).

(** The fields of [http.Server] that [listen] sets; [Addr] stays empty for
    the server of the unix socket. *)
Record Server (H : Type) : Type := mkServer {
  Handler : H;
  Addr : string;
  ReadTimeout : Z;
  WriteTimeout : Z
}.

Arguments mkServer {H} _ _ _ _.
Arguments Handler {H} _.
Arguments Addr {H} _.
Arguments ReadTimeout {H} _.
Arguments WriteTimeout {H} _.

(** What a goroutine started by [listen] does.  For the unix socket it is
    [net.Listen("unix", path)], then [os.Chmod(path, os.FileMode(mode))],
    then [Serve] or [ServeTLS]. *)
Inductive Job (H : Type) : Type :=
| ListenAndServe (s : Server H)
| ListenAndServeTLS (s : Server H) (cert key : string)
| ServeUnix (s : Server H) (path : string) (mode : Z)
| ServeUnixTLS (s : Server H) (path : string) (mode : Z) (cert key : string).

Arguments ListenAndServe {H} _.
Arguments ListenAndServeTLS {H} _ _ _.
Arguments ServeUnix {H} _ _ _.
Arguments ServeUnixTLS {H} _ _ _ _ _.

(** What [listen] does on the main goroutine, in order: file system calls,
    log lines, [go] statements. *)
Inductive ListenEvent (H : Type) : Type :=
| LStat (path : string) (found : bool)
| LRemove (path : string) (err : option Error)
| LInfo (msg : string)
| LFatal (msg : string)
| LGo (j : Job H).

Arguments LStat {H} _ _.
Arguments LRemove {H} _ _.
Arguments LInfo {H} _.
Arguments LFatal {H} _.
Arguments LGo {H} _.

(** The two calls of package [os] that [listen] makes on the main
    goroutine: [Stat] answers whether its error was nil. *)
Class FileSystem (F : Type) : Type := {
  Stat : string → F → bool;
  Remove : string → F → F * option Error
}.

(** How a run on the main goroutine ends when it does not return. *)
Inductive Halt : Type :=
| Exited (code : Z)
| Died (msg : string)
| Blocked.

#[global] Instance Halt_eq_dec : EqDecision Halt.
Proof. solve_decision. Defined.

(** A computation that threads a state, records what it did, and may halt
    the goroutine instead of returning. *)
Definition Proc (St Ev A : Type) : Type := St → (Halt + A) * St * list Ev.

#[global] Instance Proc_ret {St Ev} : MRet (Proc St Ev) :=
  λ A a s, (inr a, s, []).

#[global] Instance Proc_bind {St Ev} : MBind (Proc St Ev) :=
  λ A B k c s,
    match c s with
    | (inl h, s1, t1) => (inl h, s1, t1)
    | (inr a, s1, t1) =>
        let '(r, s2, t2) := k a s1 in (r, s2, t1 ++ t2)
    end.

Definition halt {St Ev A} (h : Halt) : Proc St Ev A :=
  λ s, (inl h, s, []).

Definition emit {St Ev} (e : Ev) : Proc St Ev unit :=
  λ s, (inr tt, s, [e]).

Definition when {St Ev} (b : bool) (c : Proc St Ev unit) : Proc St Ev unit :=
  if b then c else mret tt.

Definition ends {St Ev A} (r : (Halt + A) * St * list Ev) : Halt + A := r.1.1.
Definition state {St Ev A} (r : (Halt + A) * St * list Ev) : St := r.1.2.
Definition did {St Ev A} (r : (Halt + A) * St * list Ev) : list Ev := r.2.

(** [x != "-" && x != ""]. *)
Definition enabled (x : string) : bool :=
  negb (String.eqb x "-") && negb (String.eqb x "").

Definition job_server {H} (j : Job H) : Server H :=
  match j with
  | ListenAndServe s | ListenAndServeTLS s _ _
  | ServeUnix s _ _ | ServeUnixTLS s _ _ _ _ => s
  end.

Definition job_tls {H} (j : Job H) : option (string * string) :=
  match j with
  | ListenAndServeTLS _ c k | ServeUnixTLS _ _ _ c k => Some (c, k)
  | _ => None
  end.


Definition event_job {H} (e : ListenEvent H) : option (Job H) :=
  match e with
  | LGo j => Some j
  | _ => None
  end.

(** The goroutines a run started, in the order of their [go] statements. *)
Definition jobs {H} (t : list (ListenEvent H)) : list (Job H) :=
  omap event_job t.

Definition is_fs_call {H} (e : ListenEvent H) : bool :=
  match e with
  | LStat _ _ | LRemove _ _ => true
  | _ => false
  end.


Definition is_go {H} (e : ListenEvent H) : bool :=
  match e with
  | LGo _ => true
  | _ => false
  end.

Definition fs_path {H} (e : ListenEvent H) : option string :=
  match e with
  | LStat p _ | LRemove p _ => Some p
  | _ => None
  end.


(** The listen targets that are switched on, in the order [listen] looks
    at them. *)
Definition enabled_targets (srv : serverConfig) : list string :=
  List.filter enabled [ListenIpV4 srv; ListenIpV6 srv; ListenSocket srv].

Section Listen.

Context {F : Type} `{!FileSystem F} {H : Type}.

Definition stat (path : string) : Proc F (ListenEvent H) bool :=
  λ fs, let r := Stat path fs in (inr r, fs, [LStat path r]).

Definition remove (path : string) : Proc F (ListenEvent H) (option Error) :=
  λ fs, let '(fs', err) := Remove path fs in (inr err, fs', [LRemove path err]).

(** [logbuch.Fatal]: the message, and the goroutine goes no further. *)
Definition fatal {A} (msg : string) : Proc F (ListenEvent H) A :=
  emit (LFatal msg);; halt (Died msg).

Definition go (j : Job H) : Proc F (ListenEvent H) unit := emit (LGo j).

Definition new_server (handler : H) (addr : string) (srv : serverConfig) : Server H :=
  mkServer handler addr (seconds (TimeoutSec srv)) (seconds (TimeoutSec srv)).

(** The announcement and the [go] statement of one listener. *)
Definition serve_on (proto target : string) (j : Job H) : Proc F (ListenEvent H) unit :=
  emit (LInfo ("👉 Listening for " +:+ proto +:+ " on " +:+ target +:+ "... ✅"));;
  go j.

(** [listen] of [main.go].  [useTLS] is the answer of [config.UseTLS()],
    a method of the config package.  The function ends in a receive on a
    channel nobody sends on. *)
Definition listen (handler : H) (srv : serverConfig) (useTLS : bool)
  : Proc F (ListenEvent H) unit :=
  let s4 :=
    if enabled (ListenIpV4 srv)
    then Some (new_server handler (ListenIpV4 srv +:+ ":" +:+ Itoa (Port srv)) srv)
    else None in
  let s6 :=
    if enabled (ListenIpV6 srv)
    then Some (new_server handler
                 ("[" +:+ ListenIpV6 srv +:+ "]:" +:+ Itoa (Port srv)) srv)
    else None in
  sSocket ←
    (if enabled (ListenSocket srv)
     then
       found ← stat (ListenSocket srv);
       when found
         (emit (LInfo ("👉 Removing unix socket " +:+ ListenSocket srv));;
          err ← remove (ListenSocket srv);
          match err with
          | Some e => fatal e
          | None => mret tt
          end);;
       mret (Some (new_server handler "" srv))
     else mret None);
  (if useTLS
   then
     match s4 with
     | Some s =>
         serve_on "HTTPS" (Addr s)
           (ListenAndServeTLS s (TlsCertPath srv) (TlsKeyPath srv))
     | None => mret tt
     end;;
     match s6 with
     | Some s =>
         serve_on "HTTPS" (Addr s)
           (ListenAndServeTLS s (TlsCertPath srv) (TlsKeyPath srv))
     | None => mret tt
     end;;
     match sSocket with
     | Some s =>
         serve_on "HTTPS" (ListenSocket srv)
           (ServeUnixTLS s (ListenSocket srv) (ListenSocketMode srv)
              (TlsCertPath srv) (TlsKeyPath srv))
     | None => mret tt
     end
   else
     match s4 with
     | Some s => serve_on "HTTP" (Addr s) (ListenAndServe s)
     | None => mret tt
     end;;
     match s6 with
     | Some s => serve_on "HTTP" (Addr s) (ListenAndServe s)
     | None => mret tt
     end;;
     match sSocket with
     | Some s =>
         serve_on "HTTP" (ListenSocket srv)
           (ServeUnix s (ListenSocket srv) (ListenSocketMode srv))
     | None => mret tt
     end);;
  halt Blocked.

End Listen.

(** A file system in memory: the paths that exist, and those among them
    that cannot be removed. *)
Record MemFS : Type := mkMemFS {
  existing : gset string;
  locked : gset string
}.

Definition memfs_Stat (path : string) (fs : MemFS) : bool :=
  bool_decide (path ∈ existing fs).

Definition memfs_Remove (path : string) (fs : MemFS) : MemFS * option Error :=
  if bool_decide (path ∈ existing fs)
  then if bool_decide (path ∈ locked fs)
       then (fs, Some ("remove " +:+ path +:+ ": operation not permitted"))
       else (mkMemFS (existing fs ∖ {[path]}) (locked fs), None)
  else (fs, Some ("remove " +:+ path +:+ ": no such file or directory")).

#[global] Instance memfs_FileSystem : FileSystem MemFS := {
  Stat := memfs_Stat;
  Remove := memfs_Remove
}.

(** Concrete configurations. *)
Definition srv_default : serverConfig :=
  mkServerConfig 3000 "127.0.0.1" "::1" "-" 438 30 "" "".

Definition srv_socket : serverConfig :=
  mkServerConfig 3000 "-" "" "/run/wakapi.sock" 438 30 "/etc/tls/cert.pem" "/etc/tls/key.pem".

Definition fs_clean : MemFS := mkMemFS ∅ ∅.

Definition fs_stale : MemFS := mkMemFS {[ "/run/wakapi.sock" ]} ∅.

Definition fs_stuck : MemFS :=
  mkMemFS {[ "/run/wakapi.sock" ]} {[ "/run/wakapi.sock" ]}.

(** ** [main]: start-up of the process *)

(** The fields of [config.Config] that [main] reads besides those of the
    migration pass. *)
Record AppConfig : Type := mkAppConfig {
  forMigrations : Config;
  EnablePprof : bool;
  LeaderboardEnabled : bool;
  Dialect : string;
  BasePath : string;
  SentryDsn : string;
  ServerSection : serverConfig
}.

(** What the outside hands to one start of the process: the embedded
    version text, the two command line flags as [flag.Parse] leaves them,
    and the errors of [gorm.Open] and of [db.DB()]. *)
Record Env : Type := mkEnv {
  version : string;
  versionFlag : bool;
  configFlag : string;
  open_err : option Error;
  sqldb_err : option Error
}.

(** An argument of a call, as written at the call site: a variable, a
    string literal, the result of the call made just before for it, or any
    other expression. *)
Inductive Arg : Type :=
| V (x : string)
| Lit (text : string)
| Ret (callee : string)
| Expr (text : string).

Inductive LogFn : Type :=
| LogInfo
| LogError
| LogFatal.

(** What [main] does on the main goroutine, in order.  A call records the
    variable it assigns, its receiver, its callee, its arguments, and which
    of the variables it uses had not been assigned yet. *)
Inductive Step : Type :=
| SPrint (text : string)
| SSet (target value : string)
| SLog (fn : LogFn) (msg : string)
| SCall (target recv : option string) (callee : string) (args : list Arg)
        (nils : list string)
| SDefer (recv callee : string)
| SGo (recv : option string) (callee : string) (args : list Arg)
      (nils : list string)
| SGoLoop (body : list string)
| SDb (e : Event)
| SListen (e : ListenEvent string).

Definition var_of (a : Arg) : option string :=
  match a with
  | V x => Some x
  | _ => None
  end.

Definition step_nils (e : Step) : list string :=
  match e with
  | SCall _ _ _ _ nils | SGo _ _ _ nils => nils
  | _ => []
  end.


Definition step_callee (e : Step) : option string :=
  match e with
  | SCall _ _ callee _ _ | SGo _ callee _ _ => Some callee
  | _ => None
  end.

Definition callees (t : list Step) : list string := omap step_callee t.

Definition is_db_step (e : Step) : bool :=
  match e with
  | SDb _ => true
  | _ => false
  end.

Definition is_listen_step (e : Step) : bool :=
  match e with
  | SListen _ => true
  | _ => false
  end.

Definition is_go_step (e : Step) : bool :=
  match e with
  | SGo _ _ _ _ | SGoLoop _ => true
  | _ => false
  end.

(** Calls whose callee is [c]. *)
Definition calls_to (c : string) (t : list Step) : nat :=
  length (List.filter (String.eqb c) (callees t)).

(** The variables on which a goroutine was started as a method call. *)
Definition go_receivers (t : list Step) : list string :=
  omap (λ e, match e with
             | SGo (Some r) _ _ _ => Some r
             | _ => None
             end) t.


(** A step of the start-up that neither touches the database, nor starts
    a goroutine, nor belongs to [listen]. *)
Definition setup_step (e : Step) : bool :=
  negb (is_db_step e) && negb (is_listen_step e) && negb (is_go_step e).

(** A step that neither touches the database nor belongs to [listen]. *)
Definition plain_step (e : Step) : bool :=
  negb (is_db_step e) && negb (is_listen_step e).

(** What [main] and [listen] use of the config package: [conf.Load] and
    the methods [IsDev] and [UseTLS] of the configuration. *)
Class ConfigPackage : Type := {
  Load : string → string → AppConfig;
  IsDev : AppConfig → bool;
  UseTLS : AppConfig → bool
}.

Section Main.

Context {S : Type} `{!Migrator S} {F : Type} `{!FileSystem F} `{!ConfigPackage}.

(** The state of the process: the database behind the handle, the file
    system, and the variables that have been assigned. *)
Record Boot : Type := mkBoot {
  world : World S;
  files : F;
  assigned : gset string
}.

Definition unassigned (xs : list string) (b : Boot) : list string :=
  List.filter (λ x, negb (bool_decide (x ∈ assigned b))) xs.

Definition assign (target : option string) (b : Boot) : Boot :=
  match target with
  | Some x => mkBoot (world b) (files b) ({[ x ]} ∪ assigned b)
  | None => b
  end.

Definition uses (recv : option string) (args : list Arg) : list string :=
  match recv with
  | Some r => r :: omap var_of args
  | None => omap var_of args
  end.

(** [target = recv.callee(args...)]. *)
Definition call (target recv : option string) (callee : string) (args : list Arg)
  : Proc Boot Step unit :=
  λ b, (inr tt, assign target b,
        [SCall target recv callee args (unassigned (uses recv args) b)]).

(** [x = ctor(a1, ..., an)] on variables. *)
Definition new (x ctor : string) (args : list string) : Proc Boot Step unit :=
  call (Some x) None ctor (V <$> args).

(** [h.RegisterRoutes(r)]. *)
Definition register (h r : string) : Proc Boot Step unit :=
  call None (Some h) "RegisterRoutes" [V r].

(** [go recv.callee(args...)]. *)
Definition spawn (recv : option string) (callee : string) (args : list Arg)
  : Proc Boot Step unit :=
  λ b, (inr tt, b, [SGo recv callee args (unassigned (uses recv args) b)]).

Definition logb (fn : LogFn) (msg : string) : Proc Boot Step unit :=
  emit (SLog fn msg).

(** [logbuch.Fatal]. *)
Definition die {A} (msg : string) : Proc Boot Step A :=
  logb LogFatal msg;; halt (Died msg).

(** A computation on the database, run inside the process. *)
Definition on_db (c : M S unit) : Proc Boot Step unit :=
  λ b, let '(_, w, t) := c (world b) in
       (inr tt, mkBoot w (files b) (assigned b), SDb <$> t).

(** A computation on the file system, run inside the process. *)
Definition on_files {A} (c : Proc F (ListenEvent string) A) : Proc Boot Step A :=
  λ b, let '(r, fs, t) := c (files b) in
       (r, mkBoot (world b) fs (assigned b), SListen <$> t).

(** From the flags to the configured log level. *)
Definition main_boot (env : Env) : Proc Boot Step AppConfig :=
  call (Some "versionFlag") None "flag.Bool"
    [Lit "version"; Expr "false"; Lit "print version"];;
  call (Some "configFlag") None "flag.String"
    [Lit "config"; Expr "conf.DefaultConfigPath"; Lit "config file location"];;
  call None None "flag.Parse" [];;
  when (versionFlag env) (emit (SPrint (version env));; halt (Exited 0));;
  call (Some "config") None "conf.Load" [Expr "*configFlag"; V "version"];;
  let cfg := Load (configFlag env) (version env) in
  emit (SSet "docs.SwaggerInfo.BasePath" (BasePath cfg +:+ "/api"));;
  (if IsDev cfg
   then call None None "logbuch.SetLevel" [Expr "logbuch.LevelDebug"]
   else call None None "logbuch.SetLevel" [Expr "logbuch.LevelInfo"]);;
  logb LogInfo ("Wakapi " +:+ version env);;
  mret cfg.

(** "Set up GORM" and "Connect to database". *)
Definition main_database (env : Env) (cfg : AppConfig) : Proc Boot Step unit :=
  call None None "log.New" [Expr "os.Stdout"; Lit ""; Expr "log.LstdFlags"];;
  call (Some "gormLogger") None "logger.New" [Ret "log.New"; Expr "logger.Config"];;
  logb LogInfo ("starting with " +:+ Dialect cfg +:+ " database");;
  call None None "config.Db.GetDialector" [];;
  call None None "conf.GetWakapiDBOpts" [Expr "&config.Db"];;
  call (Some "db") None "gorm.Open"
    [Ret "config.Db.GetDialector"; V "gormLogger"; Ret "conf.GetWakapiDBOpts"];;
  match open_err env with
  | Some e => logb LogError e;; die "could not open database"
  | None => mret tt
  end;;
  when (IsDev cfg) (call (Some "db") (Some "db") "Debug" []);;
  call (Some "sqlDb") (Some "db") "DB" [];;
  match sqldb_err env with
  | Some e => logb LogError e;; die "could not connect to database"
  | None => mret tt
  end;;
  call None (Some "sqlDb") "SetMaxIdleConns" [Expr "int(config.Db.MaxConn)"];;
  call None (Some "sqlDb") "SetMaxOpenConns" [Expr "int(config.Db.MaxConn)"];;
  emit (SDefer "sqlDb" "Close").

(** "Migrate database schema". *)
Definition main_migrations (cfg : AppConfig) : Proc Boot Step unit :=
  on_db (main_migrate registry (forMigrations cfg)).

(** "Repositories". *)
Definition main_repositories : Proc Boot Step unit :=
  new "aliasRepository" "repositories.NewAliasRepository" ["db"];;
  new "heartbeatRepository" "repositories.NewHeartbeatRepository" ["db"];;
  new "userRepository" "repositories.NewUserRepository" ["db"];;
  new "languageMappingRepository" "repositories.NewLanguageMappingRepository" ["db"];;
  new "projectLabelRepository" "repositories.NewProjectLabelRepository" ["db"];;
  new "summaryRepository" "repositories.NewSummaryRepository" ["db"];;
  new "leaderboardRepository" "repositories.NewLeaderboardRepository" ["db"];;
  new "keyValueRepository" "repositories.NewKeyValueRepository" ["db"];;
  new "diagnosticsRepository" "repositories.NewDiagnosticsRepository" ["db"];;
  new "metricsRepository" "repositories.NewMetricsRepository" ["db"].

(** "Services". *)
Definition main_services (cfg : AppConfig) : Proc Boot Step unit :=
  new "mailService" "mail.NewMailService" [];;
  new "aliasService" "services.NewAliasService" ["aliasRepository"];;
  new "userService" "services.NewUserService" ["mailService"; "userRepository"];;
  new "languageMappingService" "services.NewLanguageMappingService"
    ["languageMappingRepository"];;
  new "projectLabelService" "services.NewProjectLabelService"
    ["projectLabelRepository"];;
  new "heartbeatService" "services.NewHeartbeatService"
    ["heartbeatRepository"; "languageMappingService"];;
  new "durationService" "services.NewDurationService" ["heartbeatService"];;
  new "summaryService" "services.NewSummaryService"
    ["summaryRepository"; "durationService"; "aliasService"; "projectLabelService"];;
  new "aggregationService" "services.NewAggregationService"
    ["userService"; "summaryService"; "heartbeatService"];;
  new "keyValueService" "services.NewKeyValueService" ["keyValueRepository"];;
  new "reportService" "services.NewReportService"
    ["summaryService"; "userService"; "mailService"];;
  new "activityService" "services.NewActivityService" ["summaryService"];;
  new "diagnosticsService" "services.NewDiagnosticsService" ["diagnosticsRepository"];;
  new "housekeepingService" "services.NewHousekeepingService"
    ["userService"; "heartbeatService"; "summaryService"];;
  new "miscService" "services.NewMiscService"
    ["userService"; "heartbeatService"; "summaryService"; "keyValueService";
     "mailService"];;
  when (LeaderboardEnabled cfg)
    (new "leaderboardService" "services.NewLeaderboardService"
       ["leaderboardRepository"; "summaryService"; "userService"]).

(** "Schedule background tasks". *)
Definition main_jobs (cfg : AppConfig) : Proc Boot Step unit :=
  spawn None "conf.StartJobs" [];;
  spawn (Some "aggregationService") "Schedule" [];;
  spawn (Some "reportService") "Schedule" [];;
  spawn (Some "housekeepingService") "Schedule" [];;
  spawn (Some "miscService") "Schedule" [];;
  when (LeaderboardEnabled cfg) (spawn (Some "leaderboardService") "Schedule" []);;
  call None None "routes.Init" [].

(** "API Handlers", "Compat Handlers", "MVC Handlers", "Other Handlers". *)
Definition main_handlers : Proc Boot Step unit :=
  new "healthApiHandler" "api.NewHealthApiHandler" ["db"];;
  new "heartbeatApiHandler" "api.NewHeartbeatApiHandler"
    ["userService"; "heartbeatService"; "languageMappingService"];;
  new "summaryApiHandler" "api.NewSummaryApiHandler" ["userService"; "summaryService"];;
  new "metricsHandler" "api.NewMetricsHandler"
    ["userService"; "summaryService"; "heartbeatService"; "leaderboardService";
     "keyValueService"; "metricsRepository"];;
  new "diagnosticsHandler" "api.NewDiagnosticsApiHandler"
    ["userService"; "diagnosticsService"];;
  new "avatarHandler" "api.NewAvatarHandler" [];;
  new "activityHandler" "api.NewActivityApiHandler" ["userService"; "activityService"];;
  new "badgeHandler" "api.NewBadgeHandler" ["userService"; "summaryService"];;
  new "wakatimeV1StatusBarHandler" "wtV1Routes.NewStatusBarHandler"
    ["userService"; "summaryService"];;
  new "wakatimeV1AllHandler" "wtV1Routes.NewAllTimeHandler"
    ["userService"; "summaryService"];;
  new "wakatimeV1SummariesHandler" "wtV1Routes.NewSummariesHandler"
    ["userService"; "summaryService"];;
  new "wakatimeV1StatsHandler" "wtV1Routes.NewStatsHandler"
    ["userService"; "summaryService"];;
  new "wakatimeV1UsersHandler" "wtV1Routes.NewUsersHandler"
    ["userService"; "heartbeatService"];;
  new "wakatimeV1ProjectsHandler" "wtV1Routes.NewProjectsHandler"
    ["userService"; "heartbeatService"];;
  new "wakatimeV1HeartbeatsHandler" "wtV1Routes.NewHeartbeatHandler"
    ["userService"; "heartbeatService"];;
  new "wakatimeV1LeadersHandler" "wtV1Routes.NewLeadersHandler"
    ["userService"; "leaderboardService"];;
  new "shieldV1BadgeHandler" "shieldsV1Routes.NewBadgeHandler"
    ["summaryService"; "userService"];;
  new "summaryHandler" "routes.NewSummaryHandler"
    ["summaryService"; "userService"; "keyValueService"];;
  new "settingsHandler" "routes.NewSettingsHandler"
    ["userService"; "heartbeatService"; "summaryService"; "aliasService";
     "aggregationService"; "languageMappingService"; "projectLabelService";
     "keyValueService"; "mailService"];;
  new "subscriptionHandler" "routes.NewSubscriptionHandler"
    ["userService"; "mailService"; "keyValueService"];;
  new "projectsHandler" "routes.NewProjectsHandler" ["userService"; "heartbeatService"];;
  new "homeHandler" "routes.NewHomeHandler" ["keyValueService"];;
  new "loginHandler" "routes.NewLoginHandler" ["userService"; "mailService"];;
  new "imprintHandler" "routes.NewImprintHandler" ["keyValueService"];;
  call None None "routes.NewLeaderboardHandler" [V "userService"; V "leaderboardService"];;
  call None None "routes.NewNoopHandler" [];;
  call (Some "leaderboardHandler") None "condition.TernaryOperator"
    [Expr "config.App.LeaderboardEnabled"; Ret "routes.NewLeaderboardHandler";
     Ret "routes.NewNoopHandler"];;
  new "relayHandler" "relay.NewRelayHandler" [].

(** "Setup Routing" to "API route registrations". *)
Definition main_routing (cfg : AppConfig) : Proc Boot Step unit :=
  new "router" "chi.NewRouter" [];;
  call None None "middlewares.NewPrincipalMiddleware" [];;
  call None None "middlewares.NewLoggingMiddleware"
    [Expr "logbuch.Info";
     Expr "[/assets /favicon /service-worker.js /api/health /api/avatar]"];;
  call None (Some "router") "Use"
    [Expr "middleware.CleanPath"; Expr "middleware.StripSlashes";
     Expr "middleware.Recoverer"; Ret "middlewares.NewPrincipalMiddleware";
     Ret "middlewares.NewLoggingMiddleware"];;
  when (negb (String.eqb (SentryDsn cfg) ""))
    (call None None "middlewares.NewSentryMiddleware" [];;
     call None (Some "router") "Use" [Ret "middlewares.NewSentryMiddleware"]);;
  new "rootRouter" "chi.NewRouter" [];;
  call None None "middlewares.NewSecurityMiddleware" [];;
  call None (Some "rootRouter") "Use" [Ret "middlewares.NewSecurityMiddleware"];;
  new "apiRouter" "chi.NewRouter" [];;
  call None (Some "router") "Mount" [Lit "/"; V "rootRouter"];;
  call None (Some "router") "Mount" [Lit "/api"; V "apiRouter"];;
  register "homeHandler" "rootRouter";;
  register "loginHandler" "rootRouter";;
  register "imprintHandler" "rootRouter";;
  register "summaryHandler" "rootRouter";;
  register "leaderboardHandler" "rootRouter";;
  register "projectsHandler" "rootRouter";;
  register "settingsHandler" "rootRouter";;
  register "subscriptionHandler" "rootRouter";;
  register "relayHandler" "rootRouter";;
  register "summaryApiHandler" "apiRouter";;
  register "healthApiHandler" "apiRouter";;
  register "heartbeatApiHandler" "apiRouter";;
  register "metricsHandler" "apiRouter";;
  register "diagnosticsHandler" "apiRouter";;
  register "avatarHandler" "apiRouter";;
  register "activityHandler" "apiRouter";;
  register "badgeHandler" "apiRouter";;
  register "wakatimeV1StatusBarHandler" "apiRouter";;
  register "wakatimeV1AllHandler" "apiRouter";;
  register "wakatimeV1SummariesHandler" "apiRouter";;
  register "wakatimeV1StatsHandler" "apiRouter";;
  register "wakatimeV1UsersHandler" "apiRouter";;
  register "wakatimeV1ProjectsHandler" "apiRouter";;
  register "wakatimeV1HeartbeatsHandler" "apiRouter";;
  register "wakatimeV1LeadersHandler" "apiRouter";;
  register "shieldV1BadgeHandler" "apiRouter".

(** "Static Routes", the profiling endpoint and the memory loop. *)
Definition main_static (cfg : AppConfig) : Proc Boot Step unit :=
  call (Some "embeddedStatic") None "fs.Sub" [V "staticFiles"; Lit "static"];;
  call (Some "static") None "conf.ChooseFS" [Lit "static"; V "embeddedStatic"];;
  call None None "fsutils.NewExistsFS" [V "static"];;
  call None None "WithCache" [Ret "fsutils.NewExistsFS"; Expr "!config.IsDev()"];;
  call (Some "assetsStaticFs") None "fsutils.NewExistsHttpFS" [Ret "WithCache"];;
  new "assetsFileServer" "http.FileServer" ["assetsStaticFs"];;
  when (negb (IsDev cfg))
    (new "assetsFileServer" "gzipped.FileServer" ["assetsStaticFs"]);;
  call None None "http.FS" [Expr "fsutils.NeuteredFileSystem"; V "static"];;
  call (Some "staticFileServer") None "http.FileServer" [Ret "http.FS"];;
  call None (Some "router") "Get"
    [Lit "/contribute.json"; V "staticFileServer"];;
  call None (Some "router") "Get" [Lit "/assets/*"; V "assetsFileServer"];;
  call None None "http.RedirectHandler"
    [Lit "swagger-ui/"; Expr "http.StatusMovedPermanently"];;
  call None (Some "router") "Get" [Lit "/swagger-ui"; Ret "http.RedirectHandler"];;
  call None (Some "router") "Get" [Lit "/swagger-ui/*"; Expr "httpSwagger.WrapHandler"];;
  when (EnablePprof cfg)
    (logb LogInfo
       "profiling enabled, exposing pprof data at http://127.0.0.1:6060/debug/pprof";;
     spawn None "http.ListenAndServe" [Lit "127.0.0.1:6060"; Expr "nil"]);;
  emit (SGoLoop ["time.Sleep"; "runtime.GC"; "debug.FreeOSMemory"]).

(** "Listen HTTP". *)
Definition main_listen (cfg : AppConfig) : Proc Boot Step unit :=
  on_files (listen "router" (ServerSection cfg) (UseTLS cfg)).

(** Everything between the migration pass and the listeners. *)
Definition main_wiring (cfg : AppConfig) : Proc Boot Step unit :=
  main_repositories;;
  main_services cfg;;
  main_jobs cfg;;
  main_handlers;;
  main_routing cfg;;
  main_static cfg.

(** [main] of [main.go]. *)
Definition main (env : Env) : Proc Boot Step unit :=
  cfg ← main_boot env;
  main_database env cfg;;
  main_migrations cfg;;
  main_wiring cfg;;
  main_listen cfg.

(** The process as the operating system starts it: the two embedded
    variables are set, nothing else is. *)
Definition fresh_process (w : World S) (fs : F) : Boot :=
  mkBoot w fs {[ "version"; "staticFiles" ]}.

End Main.

Arguments Boot : clear implicits.

Definition app_default : AppConfig :=
  mkAppConfig cfg0 false true "sqlite3" "" "" srv_default.

Definition app_no_leaderboard : AppConfig :=
  mkAppConfig cfg0 false false "sqlite3" "" "" srv_default.

(** A config package that loads [app_default], outside development, and
    answers [UseTLS] by whether a certificate and a key are configured. *)
Definition pkg_default : ConfigPackage := {|
  Load := λ _ _, app_default;
  IsDev := λ _, false;
  UseTLS := λ c,
    negb (String.eqb (TlsCertPath (ServerSection c)) "")
    && negb (String.eqb (TlsKeyPath (ServerSection c)) "")
|}.

Definition pkg_no_leaderboard : ConfigPackage := {|
  Load := λ _ _, app_no_leaderboard;
  IsDev := λ _, true;
  UseTLS := λ _, false
|}.

Definition env_serve : Env := mkEnv "2.5.2" false "config.yml" None None.

Definition env_version : Env := mkEnv "2.5.2" true "config.yml" None None.

Definition env_no_db : Env :=
  mkEnv "2.5.2" false "config.yml" (Some "unable to open database file") None.

Definition env_no_handle : Env :=
  mkEnv "2.5.2" false "config.yml" None (Some "sql: database is closed").

(** ** What one run of a body looks like *)

Section Runs.

Context {S : Type} `{!Migrator S}.

Implicit Types (w : World S) (cfg : Config) (t : list Event).

Lemma hasRun_run n w :
  hasRun n w = (recorded n w, w, read_trace n w).
Proof.
  unfold hasRun, ledger_find, recorded, read_trace, log, mbind, mret, M_bind, M_ret.
  destruct (ledger w); reflexivity.
Qed.

Lemma setHasRun_run n w :
  setHasRun n w = (tt, mark n w, write_trace n w).
Proof.
  unfold setHasRun, ledger_put, mark, write_trace, log, mbind, mret, M_bind, M_ret.
  destruct (ledger w); reflexivity.
Qed.

Lemma read_trace_recorded n w :
  recorded n w = true → read_trace n w = [EvLedgerRead n (inr true)].
Proof.
  unfold recorded, read_trace. destruct (ledger w); [|done].
  by intros ->.
Qed.

Lemma recorded_mark n w :
  recorded n (mark n w) = bool_decide (is_Some (ledger w)).
Proof.
  unfold recorded, mark. destruct (ledger w) as [l|] eqn:E; simpl.
  - rewrite lookup_insert_eq. rewrite !bool_decide_eq_true_2; eauto.
  - by rewrite E.
Qed.

Lemma ledger_mark_is_Some n w :
  is_Some (ledger (mark n w)) ↔ is_Some (ledger w).
Proof. unfold mark. destruct (ledger w) eqn:E; simpl; rewrite ?E; split; eauto. Qed.

Lemma schema_mark n w : schema (mark n w) = schema w.
Proof. unfold mark. by destruct (ledger w). Qed.

Lemma now_mark n w : now (mark n w) = now w.
Proof. unfold mark. by destruct (ledger w). Qed.


(** *** drop-diagnostics-user *)

Lemma diagnostics_skipped cfg w :
  recorded drop_diagnostics_user_name w = true →
  drop_diagnostics_user_f cfg w
  = (None, w, [EvLedgerRead drop_diagnostics_user_name (inr true)]).
Proof.
  intros Hrec. unfold drop_diagnostics_user_f, mbind, M_bind at 1.
  rewrite hasRun_run, Hrec, (read_trace_recorded _ _ Hrec). reflexivity.
Qed.

Lemma diagnostics_noop cfg w :
  recorded drop_diagnostics_user_name w = false →
  HasColumn Diagnostics "user_id" (schema w) = false →
  drop_diagnostics_user_f cfg w
  = (None, mark drop_diagnostics_user_name w,
     read_trace drop_diagnostics_user_name w
     ++ [EvHasColumn Diagnostics "user_id" false]
     ++ write_trace drop_diagnostics_user_name w).
Proof.
  intros Hrec Hcol. unfold drop_diagnostics_user_f, mbind, M_bind.
  rewrite hasRun_run, Hrec. unfold hasColumn. rewrite Hcol.
  unfold mret, M_ret. rewrite setHasRun_run. simpl.
  by rewrite app_nil_r.
Qed.

Lemma diagnostics_applied cfg w :
  recorded drop_diagnostics_user_name w = false →
  HasColumn Diagnostics "user_id" (schema w) = true →
  let r1 := DropConstraint Diagnostics "fk_diagnostics_user" (schema w) in
  let r2 := DropColumn Diagnostics "user_id" r1.1 in
  drop_diagnostics_user_f cfg w
  = (None, mark drop_diagnostics_user_name (set_schema r2.1 w),
     read_trace drop_diagnostics_user_name w
     ++ [EvHasColumn Diagnostics "user_id" true;
         EvLog Info ("running migration '" +:+ drop_diagnostics_user_name +:+ "'");
         EvDropConstraint Diagnostics "fk_diagnostics_user" r1.2]
     ++ warning "failed to drop 'fk_diagnostics_user' constraint (" r1.2
     ++ [EvDropColumn Diagnostics "user_id" r2.2]
     ++ warning "failed to drop user_id column of diagnostics (" r2.2
     ++ write_trace drop_diagnostics_user_name w).
Proof.
  intros Hrec Hcol r1 r2. subst r1 r2.
  unfold drop_diagnostics_user_f, mbind, M_bind.
  rewrite hasRun_run, Hrec. unfold hasColumn. rewrite Hcol.
  unfold dropConstraint, dropColumn, log, mret, M_ret. simpl.
  destruct (DropConstraint _ _ _) as [s1 e1]; simpl.
  destruct e1 as [e1|]; simpl;
    destruct (DropColumn _ _ s1) as [s2 e2]; simpl;
    destruct e2 as [e2|]; simpl;
    rewrite setHasRun_run; simpl;
    rewrite ?app_nil_r; reflexivity.
Qed.

(** *** drop-rank-column *)

Lemma rank_guard_run w :
  andM (hasTable LeaderboardItem) (hasColumn LeaderboardItem "rank") w
  = (rank_guard w, w, rank_guard_trace w).
Proof.
  unfold andM, hasTable, hasColumn, rank_guard, rank_guard_trace, mbind, mret,
    M_bind, M_ret.
  destruct (HasTable LeaderboardItem (schema w)); reflexivity.
Qed.

Lemma rank_skipped cfg w :
  recorded drop_rank_column_name w = true →
  drop_rank_column_f cfg w
  = (None, w, [EvLedgerRead drop_rank_column_name (inr true)]).
Proof.
  intros Hrec. unfold drop_rank_column_f, mbind, M_bind at 1.
  rewrite hasRun_run, Hrec, (read_trace_recorded _ _ Hrec). reflexivity.
Qed.

Lemma rank_noop cfg w :
  recorded drop_rank_column_name w = false →
  rank_guard w = false →
  drop_rank_column_f cfg w
  = (None, mark drop_rank_column_name w,
     read_trace drop_rank_column_name w
     ++ rank_guard_trace w
     ++ write_trace drop_rank_column_name w).
Proof.
  intros Hrec Hg. unfold drop_rank_column_f, mbind, M_bind at 1 2.
  rewrite hasRun_run, Hrec, rank_guard_run, Hg.
  unfold mbind, M_bind, mret, M_ret. rewrite setHasRun_run. simpl.
  by rewrite app_nil_r.
Qed.

Lemma rank_applied cfg w :
  recorded drop_rank_column_name w = false →
  rank_guard w = true →
  let r := DropColumn LeaderboardItem "rank" (schema w) in
  drop_rank_column_f cfg w
  = (None, mark drop_rank_column_name (set_schema r.1 w),
     read_trace drop_rank_column_name w
     ++ rank_guard_trace w
     ++ [EvLog Info ("running migration '" +:+ drop_rank_column_name +:+ "'");
         EvDropColumn LeaderboardItem "rank" r.2]
     ++ warning "failed to drop 'rank' column (" r.2
     ++ write_trace drop_rank_column_name w).
Proof.
  intros Hrec Hg r. subst r. unfold drop_rank_column_f, mbind, M_bind at 1 2.
  rewrite hasRun_run, Hrec, rank_guard_run, Hg.
  unfold mbind, M_bind, dropColumn, log, mret, M_ret. simpl.
  destruct (DropColumn _ _ _) as [s1 e1]; simpl.
  destruct e1 as [e1|]; simpl; rewrite setHasRun_run; simpl;
    rewrite ?app_nil_r; reflexivity.
Qed.

(** *** Traces *)

Lemma quiet_app p t1 t2 : quiet p (t1 ++ t2) = quiet p t1 && quiet p t2.
Proof. apply forallb_app. Qed.

Lemma failures_logged_app t1 t2 :
  failures_logged t1 = true → failures_logged t2 = true →
  failures_logged (t1 ++ t2) = true.
Proof.
  intros H1 H2. induction t1 as [|e rest IH]; [done|].
  simpl in *. apply andb_prop in H1 as [He Hrest].
  rewrite (IH Hrest), andb_true_r.
  destruct (failed e); [|done].
  destruct rest; [done|]. exact He.
Qed.

Lemma read_trace_logged n w : failures_logged (read_trace n w) = true.
Proof. unfold read_trace. destruct (ledger w); [|done]. simpl. done. Qed.

Lemma write_trace_logged n w : failures_logged (write_trace n w) = true.
Proof. unfold write_trace. by destruct (ledger w). Qed.

Lemma write_trace_shape n w :
  ∃ err tail, write_trace n w = EvLedgerWrite n err :: tail
              ∧ forallb is_log tail = true
              ∧ (err = None ↔ is_Some (ledger w)).
Proof.
  unfold write_trace. destruct (ledger w).
  - exists None, []. repeat split; eauto.
  - eexists (Some _), [_]. repeat split; [done|]. by intros [? ?].
Qed.

Lemma recorded_mark_ne n n' w :
  n ≠ n' → recorded n (mark n' w) = recorded n w.
Proof.
  intros Hne. unfold recorded, mark. destruct (ledger w) as [l|] eqn:E; simpl.
  - by rewrite lookup_insert_ne.
  - by rewrite E.
Qed.

(** *** The Runner *)

Lemma Run_run (reg : Registry S) cfg w :
  let r1 := runAll cfg (preMigrations reg) w in
  let r2 := syncSchema (final r1) in
  let r3 := runAll cfg (postMigrations reg) (final r2) in
  Run reg cfg w
  = (tt, final r3,
     [EvPhase RunningPre] ++ trace r1
     ++ [EvPhase SyncingSchema] ++ trace r2
     ++ [EvPhase RunningPost] ++ trace r3
     ++ [EvPhase Done]).
Proof.
  intros r1 r2 r3. subst r1 r2 r3.
  unfold Run, enter, mbind, M_bind, final, trace.
  destruct (runAll cfg (preMigrations reg) w) as [[[] w1] t1]; simpl.
  destruct (syncSchema w1) as [[[] w2] t2]; simpl.
  destruct (runAll cfg (postMigrations reg) w2) as [[[] w3] t3]; simpl.
  reflexivity.
Qed.

Lemma runMigration_run cfg (m : migrationFunc S) w e w' t :
  f m cfg w = (e, w', t) →
  runMigration cfg m w
  = (tt, w', EvInvoke (name m) :: t
             ++ warning ("migration '" +:+ name m +:+ "' failed (") e).
Proof.
  intros Hf. unfold runMigration, mbind, M_bind, log, mret, M_ret.
  rewrite Hf. destruct e; reflexivity.
Qed.

Lemma syncSchema_run w :
  let r := AutoMigrate (schema w) in
  syncSchema w
  = (tt,
     mkWorld r.1 (match r.2 with
                  | None => Some (default ∅ (ledger w))
                  | Some _ => ledger w
                  end) (now w),
     EvAutoMigrate r.2 :: warning "schema sync failed (" r.2).
Proof.
  intros r. subst r. unfold syncSchema, autoMigrate, mbind, M_bind, log, mret, M_ret.
  destruct (AutoMigrate (schema w)) as [s [e|]]; reflexivity.
Qed.

End Runs.

(** ** Properties of the migrations *)

(** Membership in a trace that is a literal list. *)
Ltac find_event :=
  repeat first [apply list_elem_of_here | apply list_elem_of_further].

Section Claims.

Context {S : Type} `{!Migrator S}.

Implicit Types (w : World S) (cfg : Config) (t : list Event) (m : migrationFunc S).

Lemma registered_cases m :
  m ∈ all_migrations registry →
  m = drop_diagnostics_user ∨ m = drop_rank_column.
Proof.
  unfold all_migrations, registry, init_drop_rank_column,
    init_drop_diagnostics_user, registerPostMigration; simpl.
  intros Hm. apply elem_of_cons in Hm as [->|Hm]; [by left|].
  apply elem_of_cons in Hm as [->|Hm]; [by right|].
  by apply elem_of_nil in Hm.
Qed.

Lemma set_schema_same w : set_schema (schema w) w = w.
Proof. by destruct w. Qed.

Lemma registered_skipped m cfg w :
  m ∈ all_migrations registry →
  recorded (name m) w = true →
  f m cfg w = (None, w, [EvLedgerRead (name m) (inr true)]).
Proof.
  intros Hm Hrec. destruct (registered_cases m Hm) as [-> | ->]; simpl in *.
  - by apply diagnostics_skipped.
  - by apply rank_skipped.
Qed.

(** A run that the ledger does not short-circuit: the ledger consult, the
    body proper, the ledger write.  The body makes no ledger call, logs each
    of its failures, and leaves the schema alone unless it attempts a drop. *)
Lemma registered_unrecorded m cfg w :
  m ∈ all_migrations registry →
  recorded (name m) w = false →
  ∃ s' body,
    f m cfg w
    = (None, mark (name m) (set_schema s' w),
       read_trace (name m) w ++ body ++ write_trace (name m) w)
    ∧ quiet is_ledger body = true
    ∧ failures_logged body = true
    ∧ (quiet is_mutation body = true → s' = schema w).
Proof.
  intros Hm Hrec. destruct (registered_cases m Hm) as [-> | ->]; simpl in *.
  - destruct (HasColumn Diagnostics "user_id" (schema w)) eqn:Hcol.
    + pose proof (diagnostics_applied cfg w Hrec Hcol) as Hrun. simpl in Hrun.
      set (r1 := DropConstraint Diagnostics "fk_diagnostics_user" (schema w)) in *.
      set (r2 := DropColumn Diagnostics "user_id" r1.1) in *.
      exists r2.1,
        ([EvHasColumn Diagnostics "user_id" true;
          EvLog Info ("running migration '" +:+ drop_diagnostics_user_name +:+ "'");
          EvDropConstraint Diagnostics "fk_diagnostics_user" r1.2]
         ++ warning "failed to drop 'fk_diagnostics_user' constraint (" r1.2
         ++ [EvDropColumn Diagnostics "user_id" r2.2]
         ++ warning "failed to drop user_id column of diagnostics (" r2.2).
      split; [rewrite Hrun; by rewrite <- !app_assoc|].
      destruct r1.2, r2.2; repeat split; try reflexivity; discriminate.
    + exists (schema w), [EvHasColumn Diagnostics "user_id" false].
      rewrite set_schema_same. split; [by apply diagnostics_noop|].
      repeat split; reflexivity.
  - destruct (rank_guard w) eqn:Hg.
    + pose proof (rank_applied cfg w Hrec Hg) as Hrun. simpl in Hrun.
      set (r := DropColumn LeaderboardItem "rank" (schema w)) in *.
      exists r.1,
        (rank_guard_trace w
         ++ [EvLog Info ("running migration '" +:+ drop_rank_column_name +:+ "'");
             EvDropColumn LeaderboardItem "rank" r.2]
         ++ warning "failed to drop 'rank' column (" r.2).
      split; [rewrite Hrun; by rewrite <- !app_assoc|].
      unfold rank_guard_trace.
      destruct (HasTable _ _), r.2; repeat split; try reflexivity; discriminate.
    + exists (schema w), (rank_guard_trace w).
      rewrite set_schema_same. split; [by apply rank_noop|].
      unfold rank_guard_trace. destruct (HasTable _ _); repeat split; reflexivity.
Qed.




Lemma triple_eta {A} (r : A * World S * list Event) :
  r = (result r, final r, trace r).
Proof. by destruct r as [[? ?] ?]. Qed.

Lemma registered_returns_nil m cfg w :
  m ∈ all_migrations registry → result (f m cfg w) = None.
Proof.
  intros Hm. destruct (recorded (name m) w) eqn:Hrec.
  - by rewrite (registered_skipped m cfg w Hm Hrec).
  - by destruct (registered_unrecorded m cfg w Hm Hrec) as (? & ? & -> & _).
Qed.

Lemma registered_failures_logged m cfg w :
  m ∈ all_migrations registry → failures_logged (trace (f m cfg w)) = true.
Proof.
  intros Hm. destruct (recorded (name m) w) eqn:Hrec.
  - by rewrite (registered_skipped m cfg w Hm Hrec).
  - destruct (registered_unrecorded m cfg w Hm Hrec) as (? & body & -> & _ & Hb & _).
    unfold trace; simpl.
    apply failures_logged_app; [apply read_trace_logged|].
    apply failures_logged_app; [exact Hb|apply write_trace_logged].
Qed.

Lemma diagnostics_registered : drop_diagnostics_user ∈ all_migrations (registry (S:=S)).
Proof. apply list_elem_of_here. Qed.

Lemma rank_registered : drop_rank_column ∈ all_migrations (registry (S:=S)).
Proof. apply list_elem_of_further, list_elem_of_here. Qed.

Lemma runAll_two cfg (a b : migrationFunc S) w wa ta wb tb :
  runMigration cfg a w = (tt, wa, ta) →
  runMigration cfg b wa = (tt, wb, tb) →
  runAll cfg [a; b] w = (tt, wb, ta ++ tb).
Proof.
  intros Ha Hb. simpl. unfold mbind, M_bind, mret, M_ret.
  rewrite Ha, Hb. by rewrite app_nil_r.
Qed.

(** The pass over the registry as [init] builds it: nothing before the
    sync, then the two bodies. *)
Lemma Run_registry cfg w :
  let r0 := syncSchema w in
  let r1 := drop_diagnostics_user_f cfg (final r0) in
  let r2 := drop_rank_column_f cfg (final r1) in
  Run registry cfg w
  = (tt, final r2,
     [EvPhase RunningPre; EvPhase SyncingSchema] ++ trace r0
     ++ [EvPhase RunningPost; EvInvoke drop_diagnostics_user_name] ++ trace r1
     ++ [EvInvoke drop_rank_column_name] ++ trace r2
     ++ [EvPhase Done]).
Proof.
  intros r0 r1 r2.
  pose proof (registered_returns_nil _ cfg (final r0) diagnostics_registered) as H1.
  pose proof (registered_returns_nil _ cfg (final r1) rank_registered) as H2.
  assert (runAll cfg (postMigrations registry) (final r0)
          = (tt, final r2,
             (EvInvoke drop_diagnostics_user_name :: trace r1)
             ++ EvInvoke drop_rank_column_name :: trace r2)) as Hpost.
  { apply (runAll_two cfg _ _ (final r0) (final r1)).
    - rewrite (runMigration_run cfg drop_diagnostics_user (final r0)
                 None (final r1) (trace r1)).
      + simpl. by rewrite app_nil_r.
      + rewrite <- H1. apply triple_eta.
    - rewrite (runMigration_run cfg drop_rank_column (final r1)
                 None (final r2) (trace r2)).
      + simpl. by rewrite app_nil_r.
      + rewrite <- H2. apply triple_eta. }
  rewrite Run_run.
  change (runAll cfg (preMigrations registry) w) with (tt, w, @nil Event).
  change (final (tt, w, @nil Event)) with w.
  fold r0. rewrite Hpost. unfold final, trace; simpl.
  by rewrite <- !app_assoc.
Qed.


(** C4. For each of the two migrations, ledger without a record and guard
    false (the [user_id] column of diagnostics, respectively the [rank]
    column of the leaderboard table, is absent): no drop is attempted, the
    schema and the clock are as before, the ledger differs at most by the
    record of the migration, and the outcome is NoopGuardFalse. *)
Theorem guard_false_touches_only_ledger cfg w :
  (recorded drop_diagnostics_user_name w = false →
   HasColumn Diagnostics "user_id" (schema w) = false →
   let r := drop_diagnostics_user_f cfg w in
   quiet is_mutation (trace r) = true
   ∧ schema (final r) = schema w
   ∧ now (final r) = now w
   ∧ ledger (final r) = insert drop_diagnostics_user_name (now w) <$> ledger w
   ∧ outcome (trace r) = NoopGuardFalse)
  ∧ (recorded drop_rank_column_name w = false →
     HasTable LeaderboardItem (schema w)
     && HasColumn LeaderboardItem "rank" (schema w) = false →
     let r := drop_rank_column_f cfg w in
     quiet is_mutation (trace r) = true
     ∧ schema (final r) = schema w
     ∧ now (final r) = now w
     ∧ ledger (final r) = insert drop_rank_column_name (now w) <$> ledger w
     ∧ outcome (trace r) = NoopGuardFalse).
Proof.
  split.
  - intros Hrec Hcol r. subst r. rewrite (diagnostics_noop cfg w Hrec Hcol).
    unfold trace, final; simpl. rewrite schema_mark, now_mark.
    unfold mark, read_trace, write_trace, recorded in *.
    destruct (ledger w) as [l|] eqn:El; simpl; rewrite ?El, ?Hrec; done.
  - intros Hrec Hg r. subst r. rewrite (rank_noop cfg w Hrec Hg).
    unfold trace, final; simpl. rewrite schema_mark, now_mark.
    unfold mark, read_trace, write_trace, rank_guard_trace, recorded in *.
    destruct (ledger w) as [l|] eqn:El; simpl; rewrite ?El, ?Hrec;
      destruct (HasTable LeaderboardItem (schema w)); done.
Qed.

Lemma last_app_r {A} (l1 l2 : list A) x :
  last l2 = Some x → last (l1 ++ l2) = Some x.
Proof. intros H. by rewrite last_app, H. Qed.

Lemma last_cons_r {A} (a : A) l x :
  last l = Some x → last (a :: l) = Some x.
Proof. intros H. by rewrite last_cons, H. Qed.

Lemma syncSchema_logged w : failures_logged (trace (syncSchema w)) = true.
Proof.
  rewrite syncSchema_run. unfold trace; simpl.
  by destruct (AutoMigrate (schema w)).2.
Qed.

(** C5. On every database both bodies return nil, and each call of theirs
    that failed (a drop, a ledger read or write) is followed at once by a
    warning in the log.  The same holds for the whole pass over the
    registry, which always reaches its last state. *)
Theorem failures_are_absorbed cfg w :
  result (drop_diagnostics_user_f cfg w) = None
  ∧ failures_logged (trace (drop_diagnostics_user_f cfg w)) = true
  ∧ result (drop_rank_column_f cfg w) = None
  ∧ failures_logged (trace (drop_rank_column_f cfg w)) = true
  ∧ failures_logged (trace (Run registry cfg w)) = true
  ∧ last (trace (Run registry cfg w)) = Some (EvPhase Done).
Proof.
  split; [apply (registered_returns_nil _ cfg w diagnostics_registered)|].
  split; [apply (registered_failures_logged _ cfg w diagnostics_registered)|].
  split; [apply (registered_returns_nil _ cfg w rank_registered)|].
  split; [apply (registered_failures_logged _ cfg w rank_registered)|].
  rewrite Run_registry. unfold trace at 1 5; simpl. split.
  - apply failures_logged_app; [apply syncSchema_logged|]. simpl.
    apply failures_logged_app;
      [exact (registered_failures_logged drop_diagnostics_user cfg _ diagnostics_registered)|].
    simpl.
    apply failures_logged_app;
      [exact (registered_failures_logged drop_rank_column cfg _ rank_registered)|done].
  - repeat first [reflexivity | apply last_cons_r | apply last_app_r].
Qed.

(** C6. drop-diagnostics-user, ledger without a record and [user_id]
    present: the run attempts exactly two drops, first the constraint
    [fk_diagnostics_user], then the column [user_id]; the column drop is made
    whatever the constraint drop returned, on the schema it left. *)
Theorem constraint_drop_precedes_column_drop cfg w :
  recorded drop_diagnostics_user_name w = false →
  HasColumn Diagnostics "user_id" (schema w) = true →
  let r1 := DropConstraint Diagnostics "fk_diagnostics_user" (schema w) in
  let r2 := DropColumn Diagnostics "user_id" r1.1 in
  ∃ t1 t2 t3,
    trace (drop_diagnostics_user_f cfg w)
    = t1 ++ EvDropConstraint Diagnostics "fk_diagnostics_user" r1.2
         :: t2 ++ EvDropColumn Diagnostics "user_id" r2.2 :: t3
    ∧ quiet is_mutation t1 = true
    ∧ quiet is_mutation t2 = true
    ∧ quiet is_mutation t3 = true.
Proof.
  intros Hrec Hcol r1 r2.
  pose proof (diagnostics_applied cfg w Hrec Hcol) as Hrun. simpl in Hrun.
  fold r1 r2 in Hrun. rewrite Hrun. unfold trace; simpl.
  exists (read_trace drop_diagnostics_user_name w
          ++ [EvHasColumn Diagnostics "user_id" true;
              EvLog Info ("running migration '" +:+ drop_diagnostics_user_name +:+ "'")]),
    (warning "failed to drop 'fk_diagnostics_user' constraint (" r1.2),
    (warning "failed to drop user_id column of diagnostics (" r2.2
     ++ write_trace drop_diagnostics_user_name w).
  split; [by rewrite <- !app_assoc|].
  unfold read_trace, write_trace.
  destruct (ledger w), r1.2, r2.2; done.
Qed.

Lemma recorded_after_sync n w :
  (AutoMigrate (schema w)).2 = None →
  recorded n (final (syncSchema w)) = recorded n w
  ∧ is_Some (ledger (final (syncSchema w)))
  ∧ schema (final (syncSchema w)) = (AutoMigrate (schema w)).1
  ∧ trace (syncSchema w) = [EvAutoMigrate None].
Proof.
  intros Hok. rewrite syncSchema_run. unfold final, trace, recorded; simpl.
  rewrite Hok; simpl. destruct (ledger w); simpl; eauto.
Qed.

(** C7 (amended). Both migrations are registered in the post phase, the
    pre phase is empty.  For any registry the pass is: the pre-phase list,
    then the additive sync, then the post-phase list.  On a database whose
    sync succeeds and leaves neither legacy column behind, with neither name
    recorded, the pass over the registry evaluates both guards to false,
    attempts no drop, leaves the schema as the sync made it, ends in [Done]
    and has both names in the ledger. *)
Theorem fresh_database_pass cfg w :
  (name <$> preMigrations (registry (S:=S)) = []
   ∧ name <$> postMigrations (registry (S:=S))
     = [drop_diagnostics_user_name; drop_rank_column_name])
  ∧ (∀ reg : Registry S,
       let r1 := runAll cfg (preMigrations reg) w in
       let r2 := syncSchema (final r1) in
       let r3 := runAll cfg (postMigrations reg) (final r2) in
       trace (Run reg cfg w)
       = [EvPhase RunningPre] ++ trace r1
         ++ [EvPhase SyncingSchema] ++ trace r2
         ++ [EvPhase RunningPost] ++ trace r3
         ++ [EvPhase Done])
  ∧ ((AutoMigrate (schema w)).2 = None →
     HasColumn Diagnostics "user_id" (AutoMigrate (schema w)).1 = false →
     HasColumn LeaderboardItem "rank" (AutoMigrate (schema w)).1 = false →
     recorded drop_diagnostics_user_name w = false →
     recorded drop_rank_column_name w = false →
     let r := Run registry cfg w in
     quiet is_mutation (trace r) = true
     ∧ EvHasColumn Diagnostics "user_id" false ∈ trace r
     ∧ (EvHasTable LeaderboardItem false ∈ trace r
        ∨ EvHasColumn LeaderboardItem "rank" false ∈ trace r)
     ∧ recorded drop_diagnostics_user_name (final r) = true
     ∧ recorded drop_rank_column_name (final r) = true
     ∧ schema (final r) = (AutoMigrate (schema w)).1
     ∧ last (trace r) = Some (EvPhase Done)).
Proof.
  split; [done|]. split.
  - intros reg r1 r2 r3. by rewrite Run_run.
  - intros Hok Hd Hr Hrd Hrr r. subst r. rewrite Run_registry.
    destruct (recorded_after_sync drop_diagnostics_user_name w Hok)
      as (Hd0 & Hsome & Hs0 & Ht0).
    destruct (recorded_after_sync drop_rank_column_name w Hok) as (Hr0 & _).
    set (w0 := final (syncSchema w)) in *.
    rewrite Hrd in Hd0. rewrite Hrr in Hr0. rewrite <- Hs0 in Hd, Hr.
    rewrite Ht0.
    rewrite (diagnostics_noop cfg w0 Hd0 Hd).
    unfold final, trace; simpl.
    set (w1 := mark drop_diagnostics_user_name w0).
    assert (recorded drop_rank_column_name w1 = false) as Hr1.
    { subst w1. by rewrite recorded_mark_ne. }
    assert (rank_guard w1 = false) as Hg1.
    { unfold rank_guard. subst w1. rewrite schema_mark, Hr.
      apply andb_false_r. }
    rewrite (rank_noop cfg w1 Hr1 Hg1).
    unfold final, trace; simpl.
    assert (is_Some (ledger w1)) as Hsome1.
    { subst w1. by apply ledger_mark_is_Some. }
    split; [|split; [|split; [|split; [|split; [|split]]]]].
    + unfold read_trace, write_trace, rank_guard_trace.
      destruct (ledger w0), (ledger w1), (HasTable LeaderboardItem (schema w1));
        reflexivity.
    + unfold read_trace, write_trace, rank_guard_trace.
      destruct (ledger w0), (ledger w1), (HasTable LeaderboardItem (schema w1));
        simpl; find_event.
    + unfold rank_guard, rank_guard_trace, read_trace, write_trace in *.
      destruct (HasTable LeaderboardItem (schema w1)) eqn:Ht; simpl in Hg1;
        [right; rewrite Hg1|left];
        destruct (ledger w0), (ledger w1); simpl; find_event.
    + rewrite recorded_mark_ne by done. subst w1.
      rewrite recorded_mark. by apply bool_decide_eq_true_2.
    + rewrite recorded_mark. by apply bool_decide_eq_true_2.
    + subst w1. by rewrite !schema_mark.
    + repeat first [reflexivity | apply last_cons_r | apply last_app_r].
Qed.

Lemma Run_starts (reg : Registry S) cfg w :
  ∃ t, trace (Run reg cfg w) = EvPhase RunningPre :: t.
Proof. rewrite Run_run. unfold trace; simpl. eauto. Qed.

(** C8. The migration pass is entered exactly when [SkipMigrations] is
    false.  With the flag set nothing happens at all: no call is made, the
    database is as before, and the result does not depend on the registry. *)
Theorem migrations_gated_by_flag (reg : Registry S) cfg w :
  (EvPhase RunningPre ∈ trace (main_migrate reg cfg w) ↔ SkipMigrations cfg = false)
  ∧ (SkipMigrations cfg = false → main_migrate reg cfg w = Run reg cfg w)
  ∧ (SkipMigrations cfg = true → main_migrate reg cfg w = (tt, w, [])).
Proof.
  unfold main_migrate. destruct (SkipMigrations cfg); simpl.
  - split; [|done]. split; [|done].
    unfold trace, mret, M_ret; simpl. intros Hin. by apply elem_of_nil in Hin.
  - split; [|done]. split; [done|]. intros _.
    destruct (Run_starts reg cfg w) as [t ->]. apply list_elem_of_here.
Qed.


(** C10. drop-diagnostics-user never asks whether a constraint exists.
    With no ledger record and [user_id] present it attempts the drop of
    [fk_diagnostics_user] whatever [HasConstraint] would answer; when the
    drop fails, the warning follows at once and the body still returns
    nil. *)
Theorem constraint_existence_never_consulted cfg w :
  let r := drop_diagnostics_user_f cfg w in
  quiet is_has_constraint (trace r) = true
  ∧ (recorded drop_diagnostics_user_name w = false →
     HasColumn Diagnostics "user_id" (schema w) = true →
     let r1 := DropConstraint Diagnostics "fk_diagnostics_user" (schema w) in
     EvDropConstraint Diagnostics "fk_diagnostics_user" r1.2 ∈ trace r
     ∧ (∀ e, r1.2 = Some e →
          ∃ t1 t2,
            trace r
            = t1 ++ [EvDropConstraint Diagnostics "fk_diagnostics_user" (Some e);
                     EvLog Warn ("failed to drop 'fk_diagnostics_user' constraint ("
                                 +:+ e +:+ ")")] ++ t2)
     ∧ result r = None).
Proof.
  intros r. subst r. split.
  - destruct (recorded drop_diagnostics_user_name w) eqn:Hrec.
    + by rewrite (diagnostics_skipped cfg w Hrec).
    + destruct (HasColumn Diagnostics "user_id" (schema w)) eqn:Hcol.
      * pose proof (diagnostics_applied cfg w Hrec Hcol) as Hrun. simpl in Hrun.
        rewrite Hrun. unfold trace; simpl. unfold read_trace, write_trace.
        destruct (ledger w), (DropConstraint _ _ _).2, (DropColumn _ _ _).2;
          reflexivity.
      * rewrite (diagnostics_noop cfg w Hrec Hcol). unfold trace; simpl.
        unfold read_trace, write_trace. destruct (ledger w); reflexivity.
  - intros Hrec Hcol r1.
    pose proof (diagnostics_applied cfg w Hrec Hcol) as Hrun. simpl in Hrun.
    fold r1 in Hrun. rewrite Hrun. unfold trace, result; simpl.
    split; [|split; [|done]].
    + apply elem_of_app. right. do 2 apply list_elem_of_further.
      apply list_elem_of_here.
    + intros e He. rewrite He. simpl.
      exists (read_trace drop_diagnostics_user_name w
              ++ [EvHasColumn Diagnostics "user_id" true;
                  EvLog Info ("running migration '" +:+ drop_diagnostics_user_name +:+ "'")]).
      eexists. rewrite <- app_assoc. simpl. reflexivity.
Qed.

End Claims.

(** ** The properties on concrete databases *)







Lemma guard_false_touches_only_ledger_witness :
  recorded drop_diagnostics_user_name db_rank = false
  ∧ HasColumn Diagnostics "user_id" (schema db_rank) = false
  ∧ outcome (trace (drop_diagnostics_user_f cfg0 db_rank)) = NoopGuardFalse
  ∧ recorded drop_rank_column_name db_legacy = false
  ∧ HasTable LeaderboardItem (schema db_legacy)
    && HasColumn LeaderboardItem "rank" (schema db_legacy) = false
  ∧ schema (final (drop_rank_column_f cfg0 db_legacy)) = schema db_legacy.
Proof.
  assert (recorded drop_diagnostics_user_name db_rank = false)
    as H1 by (vm_compute; reflexivity).
  assert (HasColumn Diagnostics "user_id" (schema db_rank) = false)
    as H2 by (vm_compute; reflexivity).
  assert (recorded drop_rank_column_name db_legacy = false)
    as H3 by (vm_compute; reflexivity).
  assert (HasTable LeaderboardItem (schema db_legacy)
          && HasColumn LeaderboardItem "rank" (schema db_legacy) = false)
    as H4 by (vm_compute; reflexivity).
  split; [exact H1|]. split; [exact H2|]. split.
  - exact (proj2 (proj2 (proj2 (proj2
      (proj1 (guard_false_touches_only_ledger cfg0 db_rank) H1 H2))))).
  - split; [exact H3|]. split; [exact H4|].
    exact (proj1 (proj2
      (proj2 (guard_false_touches_only_ledger cfg0 db_legacy) H3 H4))).
Defined.

Lemma constraint_drop_precedes_column_drop_witness :
  recorded drop_diagnostics_user_name db_legacy = false
  ∧ HasColumn Diagnostics "user_id" (schema db_legacy) = true
  ∧ ∃ t1 t2 t3,
      trace (drop_diagnostics_user_f cfg0 db_legacy)
      = t1 ++ EvDropConstraint Diagnostics "fk_diagnostics_user"
                (DropConstraint Diagnostics "fk_diagnostics_user"
                   (schema db_legacy)).2
           :: t2 ++ EvDropColumn Diagnostics "user_id"
                      (DropColumn Diagnostics "user_id"
                         (DropConstraint Diagnostics "fk_diagnostics_user"
                            (schema db_legacy)).1).2
           :: t3
      ∧ quiet is_mutation t1 = true
      ∧ quiet is_mutation t2 = true
      ∧ quiet is_mutation t3 = true.
Proof.
  assert (recorded drop_diagnostics_user_name db_legacy = false)
    as Hrec by (vm_compute; reflexivity).
  assert (HasColumn Diagnostics "user_id" (schema db_legacy) = true)
    as Hcol by (vm_compute; reflexivity).
  split; [exact Hrec|]. split; [exact Hcol|].
  exact (constraint_drop_precedes_column_drop cfg0 db_legacy Hrec Hcol).
Defined.

Lemma fresh_database_pass_witness :
  (AutoMigrate (schema db_empty)).2 = None
  ∧ HasColumn Diagnostics "user_id" (AutoMigrate (schema db_empty)).1 = false
  ∧ HasColumn LeaderboardItem "rank" (AutoMigrate (schema db_empty)).1 = false
  ∧ recorded drop_diagnostics_user_name db_empty = false
  ∧ recorded drop_rank_column_name db_empty = false
  ∧ quiet is_mutation (trace (Run registry cfg0 db_empty)) = true
  ∧ recorded drop_diagnostics_user_name (final (Run registry cfg0 db_empty)) = true
  ∧ recorded drop_rank_column_name (final (Run registry cfg0 db_empty)) = true.
Proof.
  assert ((AutoMigrate (schema db_empty)).2 = None)
    as H1 by (vm_compute; reflexivity).
  assert (HasColumn Diagnostics "user_id" (AutoMigrate (schema db_empty)).1 = false)
    as H2 by (vm_compute; reflexivity).
  assert (HasColumn LeaderboardItem "rank" (AutoMigrate (schema db_empty)).1 = false)
    as H3 by (vm_compute; reflexivity).
  assert (recorded drop_diagnostics_user_name db_empty = false)
    as H4 by (vm_compute; reflexivity).
  assert (recorded drop_rank_column_name db_empty = false)
    as H5 by (vm_compute; reflexivity).
  destruct (proj2 (proj2 (fresh_database_pass cfg0 db_empty)) H1 H2 H3 H4 H5)
    as (Hq & _ & _ & Hd & Hr & _).
  repeat (split; [assumption|]). exact Hr.
Defined.

(** C7, as stated, fails on the placement: drop-rank-column is not in the
    pre-phase list; [init] registers it in the post phase. *)
Lemma rank_not_registered_pre :
  (drop_rank_column_name
     ∉ (name <$> preMigrations (registry (S:=gmap string Table))))
  ∧ (drop_rank_column_name
     ∈ (name <$> postMigrations (registry (S:=gmap string Table)))).
Proof.
  split.
  - simpl. apply not_elem_of_nil.
  - simpl. find_event.
Qed.

Lemma migrations_gated_by_flag_witness :
  SkipMigrations cfg_skip = true
  ∧ main_migrate registry cfg_skip db_legacy = (tt, db_legacy, [])
  ∧ SkipMigrations cfg0 = false
  ∧ main_migrate registry cfg0 db_legacy = Run registry cfg0 db_legacy
  ∧ EvPhase RunningPre ∈ trace (main_migrate registry cfg0 db_legacy).
Proof.
  split; [reflexivity|]. split.
  - exact (proj2 (proj2 (migrations_gated_by_flag registry cfg_skip db_legacy))
             eq_refl).
  - split; [reflexivity|]. split.
    + exact (proj1 (proj2 (migrations_gated_by_flag registry cfg0 db_legacy))
               eq_refl).
    + exact (proj2 (proj1 (migrations_gated_by_flag registry cfg0 db_legacy))
               eq_refl).
Defined.



Lemma constraint_existence_never_consulted_witness :
  recorded drop_diagnostics_user_name db_no_fk = false
  ∧ HasColumn Diagnostics "user_id" (schema db_no_fk) = true
  ∧ HasConstraint Diagnostics "fk_diagnostics_user" (schema db_no_fk) = false
  ∧ EvDropConstraint Diagnostics "fk_diagnostics_user"
      (DropConstraint Diagnostics "fk_diagnostics_user" (schema db_no_fk)).2
    ∈ trace (drop_diagnostics_user_f cfg0 db_no_fk)
  ∧ result (drop_diagnostics_user_f cfg0 db_no_fk) = None.
Proof.
  assert (recorded drop_diagnostics_user_name db_no_fk = false)
    as Hrec by (vm_compute; reflexivity).
  assert (HasColumn Diagnostics "user_id" (schema db_no_fk) = true)
    as Hcol by (vm_compute; reflexivity).
  split; [exact Hrec|]. split; [exact Hcol|].
  split; [vm_compute; reflexivity|].
  destruct (proj2 (constraint_existence_never_consulted cfg0 db_no_fk) Hrec Hcol)
    as (Hin & _ & Hnil).
  split; [exact Hin|exact Hnil].
Defined.

(** ** Further properties of the two bodies *)

Section Footprint.

Context {S : Type} `{!Migrator S}.

Implicit Types (w : World S) (cfg : Config) (t : list Event) (m : migrationFunc S).

(** X1. drop-rank-column, ledger without a record, table and column
    present, and the column drop fails with [e] (for instance because a
    second instance dropped the column first): the drop is the only mutation
    attempted, its failure is logged at once as the warning of the source,
    the ledger write follows, the body returns nil and the schema is what
    the failed statement left. *)
Theorem rank_drop_failure_is_absorbed cfg w e :
  recorded drop_rank_column_name w = false →
  HasTable LeaderboardItem (schema w)
  && HasColumn LeaderboardItem "rank" (schema w) = true →
  (DropColumn LeaderboardItem "rank" (schema w)).2 = Some e →
  let r := drop_rank_column_f cfg w in
  (∃ t1 err tail,
     trace r
     = t1
       ++ [EvDropColumn LeaderboardItem "rank" (Some e);
           EvLog Warn ("failed to drop 'rank' column (" +:+ e +:+ ")");
           EvLedgerWrite drop_rank_column_name err]
       ++ tail
     ∧ quiet is_mutation t1 = true
     ∧ forallb is_log tail = true)
  ∧ result r = None
  ∧ schema (final r) = (DropColumn LeaderboardItem "rank" (schema w)).1.
Proof.
  intros Hrec Hg He r. subst r.
  pose proof (rank_applied cfg w Hrec Hg) as Hrun. simpl in Hrun.
  rewrite He in Hrun. rewrite Hrun. unfold trace, final, result; simpl.
  split; [|split; [done|by rewrite schema_mark]].
  destruct (write_trace_shape drop_rank_column_name w)
    as (err & tail & -> & Htail & _).
  exists (read_trace drop_rank_column_name w ++ rank_guard_trace w
          ++ [EvLog Info ("running migration '" +:+ drop_rank_column_name +:+ "'")]),
    err, tail.
  split; [by rewrite <- !app_assoc|]. split; [|done].
  unfold read_trace, rank_guard_trace.
  destruct (ledger w), (HasTable LeaderboardItem (schema w)); reflexivity.
Qed.

(** X2. For each registered migration, the line "running migration
    '<name>'" is logged exactly when a drop is attempted, once, and before
    the first drop: a run that attempts no drop logs no info line at all. *)
Theorem info_line_announces_mutation m cfg w :
  m ∈ all_migrations registry →
  let t := trace (f m cfg w) in
  (quiet is_mutation t = true → quiet is_info t = true)
  ∧ (quiet is_mutation t = false →
     ∃ t1 t2,
       t = t1 ++ EvLog Info ("running migration '" +:+ name m +:+ "'") :: t2
       ∧ quiet is_mutation t1 = true
       ∧ quiet is_info t1 = true
       ∧ quiet is_info t2 = true).
Proof.
  intros Hm t. subst t.
  destruct (registered_cases m Hm) as [-> | ->]; simpl.
  - destruct (recorded drop_diagnostics_user_name w) eqn:Hrec.
    { rewrite (diagnostics_skipped cfg w Hrec). by split. }
    destruct (HasColumn Diagnostics "user_id" (schema w)) eqn:Hcol.
    + pose proof (diagnostics_applied cfg w Hrec Hcol) as Hrun. simpl in Hrun.
      rewrite Hrun. unfold trace; simpl. split.
      * unfold read_trace, write_trace.
        destruct (ledger w), (DropConstraint _ _ _).2, (DropColumn _ _ _).2;
          discriminate.
      * intros _.
        exists (read_trace drop_diagnostics_user_name w
                ++ [EvHasColumn Diagnostics "user_id" true]).
        eexists. split; [rewrite <- app_assoc; reflexivity|].
        unfold read_trace, write_trace.
        destruct (ledger w), (DropConstraint _ _ _).2, (DropColumn _ _ _).2;
          repeat split; reflexivity.
    + rewrite (diagnostics_noop cfg w Hrec Hcol). unfold trace; simpl.
      unfold read_trace, write_trace. destruct (ledger w); by split.
  - destruct (recorded drop_rank_column_name w) eqn:Hrec.
    { rewrite (rank_skipped cfg w Hrec). by split. }
    destruct (rank_guard w) eqn:Hg.
    + pose proof (rank_applied cfg w Hrec Hg) as Hrun. simpl in Hrun.
      rewrite Hrun. unfold trace; simpl. split.
      * unfold read_trace, write_trace, rank_guard_trace.
        destruct (ledger w), (HasTable _ _), (DropColumn _ _ _).2; discriminate.
      * intros _.
        exists (read_trace drop_rank_column_name w ++ rank_guard_trace w).
        eexists. split; [rewrite <- app_assoc; reflexivity|].
        unfold read_trace, write_trace, rank_guard_trace.
        destruct (ledger w), (HasTable _ _), (DropColumn _ _ _).2;
          repeat split; reflexivity.
    + rewrite (rank_noop cfg w Hrec Hg). unfold trace; simpl.
      unfold read_trace, write_trace, rank_guard_trace.
      destruct (ledger w), (HasTable _ _); by split.
Qed.

(** X3. Each body stays on its own entity.  drop-diagnostics-user calls
    the Migrator only on [Diagnostics], naming only the column [user_id] and
    the constraint [fk_diagnostics_user], and never asks whether a table
    exists; drop-rank-column calls it only on [LeaderboardItem], naming only
    the column [rank], and never touches a constraint. *)
Theorem bodies_stay_on_their_entity cfg w :
  only_on Diagnostics ["user_id"; "fk_diagnostics_user"]
    (trace (drop_diagnostics_user_f cfg w)) = true
  ∧ quiet is_has_table (trace (drop_diagnostics_user_f cfg w)) = true
  ∧ only_on LeaderboardItem ["rank"] (trace (drop_rank_column_f cfg w)) = true
  ∧ quiet is_drop_of_constraint (trace (drop_rank_column_f cfg w)) = true
  ∧ quiet is_has_constraint (trace (drop_rank_column_f cfg w)) = true.
Proof.
  assert (only_on Diagnostics ["user_id"; "fk_diagnostics_user"]
            (trace (drop_diagnostics_user_f cfg w)) = true
          ∧ quiet is_has_table (trace (drop_diagnostics_user_f cfg w)) = true)
    as [Hd1 Hd2].
  { destruct (recorded drop_diagnostics_user_name w) eqn:Hrec.
    { rewrite (diagnostics_skipped cfg w Hrec). by split. }
    destruct (HasColumn Diagnostics "user_id" (schema w)) eqn:Hcol.
    - pose proof (diagnostics_applied cfg w Hrec Hcol) as Hrun. simpl in Hrun.
      rewrite Hrun. unfold trace; simpl. unfold read_trace, write_trace.
      destruct (ledger w), (DropConstraint _ _ _).2, (DropColumn _ _ _).2;
        split; vm_compute; reflexivity.
    - rewrite (diagnostics_noop cfg w Hrec Hcol). unfold trace; simpl.
      unfold read_trace, write_trace.
      destruct (ledger w); split; vm_compute; reflexivity. }
  split; [exact Hd1|]. split; [exact Hd2|].
  destruct (recorded drop_rank_column_name w) eqn:Hrec.
  { rewrite (rank_skipped cfg w Hrec). by repeat split. }
  destruct (rank_guard w) eqn:Hg.
  - pose proof (rank_applied cfg w Hrec Hg) as Hrun. simpl in Hrun.
    rewrite Hrun. unfold trace; simpl.
    unfold read_trace, write_trace, rank_guard_trace.
    destruct (ledger w), (HasTable LeaderboardItem (schema w)),
      (HasColumn LeaderboardItem "rank" (schema w)),
      (DropColumn LeaderboardItem "rank" (schema w)).2;
      repeat split; vm_compute; reflexivity.
  - rewrite (rank_noop cfg w Hrec Hg). unfold trace; simpl.
    unfold read_trace, write_trace, rank_guard_trace.
    destruct (ledger w), (HasTable LeaderboardItem (schema w)),
      (HasColumn LeaderboardItem "rank" (schema w));
      repeat split; vm_compute; reflexivity.
Qed.

(** X4. For each registered migration the ledger consult is the first
    call of every run and the only consult, every ledger call is made for
    the migration's own name, and the record of any other name is as it was
    before the run. *)
Theorem ledger_calls_use_own_key m cfg w :
  m ∈ all_migrations registry →
  let r := f m cfg w in
  only_key (name m) (trace r) = true
  ∧ (∃ res t, trace r = EvLedgerRead (name m) res :: t
              ∧ quiet is_ledger_read t = true)
  ∧ (∀ n, n ≠ name m → recorded n (final r) = recorded n w).
Proof.
  intros Hm r. subst r.
  destruct (recorded (name m) w) eqn:Hrec.
  { rewrite (registered_skipped m cfg w Hm Hrec). unfold trace, final; simpl.
    split; [by rewrite bool_decide_eq_true_2|]. split; [|done].
    by eexists _, []. }
  destruct (registered_unrecorded m cfg w Hm Hrec)
    as (s' & body & -> & Hled & _ & _).
  unfold trace, final; simpl.
  assert (∀ p : Event → bool,
            (∀ e, is_ledger e = false → p e = true) → forallb p body = true)
    as Hbody.
  { intros p Hp. clear -Hled Hp. induction body as [|e body IH]; [done|].
    simpl in *. apply andb_prop in Hled as [He Hb].
    rewrite (IH Hb), andb_true_r. apply Hp. by destruct (is_ledger e). }
  assert (only_key (name m) body = true) as Hkey
    by (apply Hbody; intros [] ?; done).
  assert (quiet is_ledger_read body = true) as Hread
    by (apply Hbody; intros [] ?; done).
  split; [|split].
  - unfold only_key in *. rewrite !forallb_app, Hkey.
    unfold read_trace, write_trace.
    destruct (ledger w); simpl; rewrite !bool_decide_eq_true_2; done.
  - unfold read_trace at 1.
    destruct (ledger w) as [l|] eqn:El; simpl.
    + eexists _, _. split; [reflexivity|].
      rewrite quiet_app, Hread. unfold write_trace. by rewrite El.
    + eexists _, _. split; [reflexivity|]. simpl.
      rewrite quiet_app, Hread. unfold write_trace. by rewrite El.
  - intros n Hn. by rewrite recorded_mark_ne.
Qed.

(** X5. What a run does to the schema.  drop-diagnostics-user leaves it
    as it was when the ledger has a record or [user_id] is absent, and
    otherwise leaves what the column drop returns on what the constraint
    drop returned; drop-rank-column leaves it as it was when the ledger has a
    record or the guard is false, and otherwise leaves what its one column
    drop returns.  Neither changes the clock. *)
Theorem schema_after_run cfg w :
  schema (final (drop_diagnostics_user_f cfg w))
  = (if recorded drop_diagnostics_user_name w then schema w
     else if HasColumn Diagnostics "user_id" (schema w)
          then (DropColumn Diagnostics "user_id"
                  (DropConstraint Diagnostics "fk_diagnostics_user" (schema w)).1).1
          else schema w)
  ∧ schema (final (drop_rank_column_f cfg w))
    = (if recorded drop_rank_column_name w then schema w
       else if HasTable LeaderboardItem (schema w)
               && HasColumn LeaderboardItem "rank" (schema w)
            then (DropColumn LeaderboardItem "rank" (schema w)).1
            else schema w)
  ∧ now (final (drop_diagnostics_user_f cfg w)) = now w
  ∧ now (final (drop_rank_column_f cfg w)) = now w.
Proof.
  assert (schema (final (drop_diagnostics_user_f cfg w))
          = (if recorded drop_diagnostics_user_name w then schema w
             else if HasColumn Diagnostics "user_id" (schema w)
                  then (DropColumn Diagnostics "user_id"
                          (DropConstraint Diagnostics "fk_diagnostics_user"
                             (schema w)).1).1
                  else schema w)
          ∧ now (final (drop_diagnostics_user_f cfg w)) = now w) as [Hd1 Hd2].
  { destruct (recorded drop_diagnostics_user_name w) eqn:Hrec.
    { by rewrite (diagnostics_skipped cfg w Hrec). }
    destruct (HasColumn Diagnostics "user_id" (schema w)) eqn:Hcol.
    - pose proof (diagnostics_applied cfg w Hrec Hcol) as Hrun. simpl in Hrun.
      rewrite Hrun. unfold final; simpl. by rewrite schema_mark, now_mark.
    - rewrite (diagnostics_noop cfg w Hrec Hcol). unfold final; simpl.
      by rewrite schema_mark, now_mark. }
  split; [exact Hd1|].
  enough (schema (final (drop_rank_column_f cfg w))
          = (if recorded drop_rank_column_name w then schema w
             else if rank_guard w
                  then (DropColumn LeaderboardItem "rank" (schema w)).1
                  else schema w)
          ∧ now (final (drop_rank_column_f cfg w)) = now w) as [Hr1 Hr2]
    by (split; [exact Hr1|]; split; [exact Hd2|exact Hr2]).
  destruct (recorded drop_rank_column_name w) eqn:Hrec.
  { by rewrite (rank_skipped cfg w Hrec). }
  destruct (rank_guard w) eqn:Hg.
  - pose proof (rank_applied cfg w Hrec Hg) as Hrun. simpl in Hrun.
    rewrite Hrun. unfold final; simpl. by rewrite schema_mark, now_mark.
  - rewrite (rank_noop cfg w Hrec Hg). unfold final; simpl.
    by rewrite schema_mark, now_mark.
Qed.

End Footprint.

(** ** Properties of [listen] *)

Lemma int64_small z : (- 2 ^ 63 ≤ z < 2 ^ 63)%Z → int64 z = z.
Proof. intros Hz. unfold int64. rewrite Z.mod_small by lia. lia. Qed.

Lemma int64_range z : (- 2 ^ 63 ≤ int64 z < 2 ^ 63)%Z.
Proof.
  unfold int64.
  pose proof (Z.mod_pos_bound (z + 2 ^ 63) (2 ^ 64) ltac:(lia)). lia.
Qed.

(** X6. [time.Duration(n) * time.Second] is [n] seconds exactly for the
    values of [n] between -9223372036 and 9223372036, and for no other
    64-bit value: beyond them the product wraps around. *)
Theorem seconds_exact_iff n :
  (- 2 ^ 63 ≤ n < 2 ^ 63)%Z →
  (seconds n = (n * Second)%Z ↔ (-9223372036 ≤ n ≤ 9223372036)%Z).
Proof.
  intros Hn. unfold seconds. rewrite (int64_small n Hn). unfold Second. split.
  - intros Heq. pose proof (int64_range (n * 1000000000)) as Hr.
    rewrite Heq in Hr. lia.
  - intros Hb. apply int64_small. lia.
Qed.

Lemma seconds_exact_iff_witness :
  (- 2 ^ 63 ≤ 30 < 2 ^ 63)%Z
  ∧ (-9223372036 ≤ 30 ≤ 9223372036)%Z
  ∧ seconds 30 = (30 * Second)%Z
  ∧ (- 2 ^ 63 ≤ 9223372037 < 2 ^ 63)%Z
  ∧ seconds 9223372037 ≠ (9223372037 * Second)%Z.
Proof.
  assert (- 2 ^ 63 ≤ 30 < 2 ^ 63)%Z as H1 by lia.
  assert (-9223372036 ≤ 30 ≤ 9223372036)%Z as H2 by lia.
  assert (- 2 ^ 63 ≤ 9223372037 < 2 ^ 63)%Z as H3 by lia.
  split; [exact H1|]. split; [exact H2|].
  split; [exact (proj2 (seconds_exact_iff 30 H1) H2)|].
  split; [exact H3|].
  intros Heq. pose proof (proj1 (seconds_exact_iff 9223372037 H3) Heq). lia.
Defined.

Section ListenFacts.

Context {F : Type} `{!FileSystem F} {H : Type}.

Implicit Types (handler : H) (srv : serverConfig) (useTLS : bool) (fs : F).

#[local] Arguments seconds : simpl never.
#[local] Arguments Itoa : simpl never.
#[local] Arguments enabled : simpl never.
#[local] Arguments String.append : simpl never.

(** Case analysis on everything [listen] branches on. *)
Ltac listen_cases srv useTLS fs :=
  unfold listen, serve_on, go, fatal, stat, remove, when, emit, halt,
    new_server, enabled_targets, mbind, mret, Proc_bind, Proc_ret,
    ends, state, did;
  simpl;
  destruct (enabled (ListenIpV4 srv)), (enabled (ListenIpV6 srv)),
    (enabled (ListenSocket srv)), useTLS;
  simpl;
  try (destruct (Stat (ListenSocket srv) fs); simpl;
       try (destruct (Remove (ListenSocket srv) fs) as [? [?|]]; simpl)).

(** X7. [listen] never returns.  On its own goroutine it dies, in
    [logbuch.Fatal], exactly when the unix socket is switched on, its path
    exists and cannot be removed; the message is the error of the removal,
    and no listener at all has been started by then, the TCP ones included.
    In every other case it ends blocked on its channel.  (What the goroutines
    it started do later is theirs.) *)
Theorem listen_dies_only_on_stale_socket handler srv useTLS fs :
  let r := listen handler srv useTLS fs in
  ends r
  = match (if enabled (ListenSocket srv) && Stat (ListenSocket srv) fs
           then (Remove (ListenSocket srv) fs).2 else None) with
    | Some e => inl (Died e)
    | None => inl Blocked
    end
  ∧ (ends r ≠ inl Blocked →
     jobs (did r) = [] ∧ ∃ e, last (did r) = Some (LFatal e)).
Proof.
  intros r. subst r.
  listen_cases srv useTLS fs; (split; [reflexivity|]); intros Hne;
    try (exfalso; by apply Hne); split; try reflexivity; eauto.
Qed.


(** X9. The listeners are all of one kind: with [config.UseTLS()] true
    every goroutine serves TLS with the configured certificate and key, with
    it false none does. *)
Theorem listen_tls_is_uniform handler srv useTLS fs :
  Forall (λ j, job_tls j
               = if useTLS then Some (TlsCertPath srv, TlsKeyPath srv) else None)
    (jobs (did (listen handler srv useTLS fs))).
Proof.
  listen_cases srv useTLS fs; repeat constructor.
Qed.

(** X10. Every server [listen] starts has the handler it was given and
    the same read and write timeout, [TimeoutSec] seconds as a
    [time.Duration]. *)
Theorem listen_servers_share_settings handler srv useTLS fs :
  Forall (λ j, Handler (job_server j) = handler
               ∧ ReadTimeout (job_server j) = seconds (TimeoutSec srv)
               ∧ WriteTimeout (job_server j) = seconds (TimeoutSec srv))
    (jobs (did (listen handler srv useTLS fs))).
Proof.
  listen_cases srv useTLS fs; repeat constructor.
Qed.

(** X11. What [listen] does to the file system.  With the unix socket
    switched off it makes no file system call.  Otherwise it asks once
    whether the socket path exists and removes it only if it does; it names
    no other path.  The file system is left as the removal left it, and the
    calls all come before the first [go] statement. *)
Theorem listen_file_system_footprint handler srv useTLS fs :
  let r := listen handler srv useTLS fs in
  state r
  = (if enabled (ListenSocket srv) && Stat (ListenSocket srv) fs
     then (Remove (ListenSocket srv) fs).1 else fs)
  ∧ List.filter is_fs_call (did r)
    = (if enabled (ListenSocket srv)
       then LStat (ListenSocket srv) (Stat (ListenSocket srv) fs)
            :: (if Stat (ListenSocket srv) fs
                then [LRemove (ListenSocket srv) (Remove (ListenSocket srv) fs).2]
                else [])
       else [])
  ∧ ∃ t1 t2, did r = t1 ++ t2
             ∧ jobs t1 = []
             ∧ List.filter is_fs_call t2 = [].
Proof.
  intros r. subst r.
  destruct (Stat (ListenSocket srv) fs) eqn:Hstat;
    destruct (Remove (ListenSocket srv) fs) as [fs' err] eqn:Hrem;
    unfold listen, serve_on, go, fatal, stat, remove, when, emit, halt,
      new_server, mbind, mret, Proc_bind, Proc_ret, ends, state, did; simpl;
    rewrite ?Hstat, ?Hrem; simpl;
    destruct (enabled (ListenIpV4 srv)), (enabled (ListenIpV6 srv)),
      (enabled (ListenSocket srv)), useTLS; simpl;
    rewrite ?Hstat, ?Hrem; simpl;
    try destruct err; simpl;
    (split; [reflexivity|]); (split; [reflexivity|]);
    first
      [ by eexists [], _
      | by eexists [_], _
      | by eexists [_; _; _], _
      | by eexists [_; _; _; _], _ ].
Qed.

End ListenFacts.

(** ** Properties of [main] *)

Lemma bind_returns {St Ev A B} (c : Proc St Ev A) (k : A → Proc St Ev B) s a :
  ends (c s) = inr a →
  (c ≫= k) s
  = (ends (k a (state (c s))), state (k a (state (c s))),
     did (c s) ++ did (k a (state (c s)))).
Proof.
  unfold mbind, Proc_bind, ends, state, did.
  destruct (c s) as [[[h|a'] s1] t1]; simpl; [discriminate|].
  intros [= ->]. by destruct (k a s1) as [[? ?] ?].
Qed.

Lemma bind_halts {St Ev A B} (c : Proc St Ev A) (k : A → Proc St Ev B) s h :
  ends (c s) = inl h →
  (c ≫= k) s = (inl h, state (c s), did (c s)).
Proof.
  unfold mbind, Proc_bind, ends, state, did.
  destruct (c s) as [[[h'|a] s1] t1]; simpl; [|discriminate].
  by intros [= ->].
Qed.

Lemma ends_with_here {A} (l : list A) : ∃ t, l = t ++ l.
Proof. by exists []. Qed.

Lemma ends_with_cons {A} (x : A) (l l' : list A) :
  (∃ t, l = t ++ l') → ∃ t, x :: l = t ++ l'.
Proof. intros [t ->]. by exists (x :: t). Qed.

Lemma ends_with_app {A} (l0 l l' : list A) :
  (∃ t, l = t ++ l') → ∃ t, l0 ++ l = t ++ l'.
Proof. intros [t ->]. exists (l0 ++ t). by rewrite app_assoc. Qed.

(** A list that ends in a literal list ends with a given literal list. *)
Ltac ends_with :=
  repeat first [apply ends_with_here | apply ends_with_cons | apply ends_with_app].




Lemma callees_app t1 t2 : callees (t1 ++ t2) = callees t1 ++ callees t2.
Proof. unfold callees. apply omap_app. Qed.

Lemma calls_to_app c t1 t2 : calls_to c (t1 ++ t2) = calls_to c t1 + calls_to c t2.
Proof.
  unfold calls_to. by rewrite callees_app, List.filter_app, length_app.
Qed.

Lemma go_receivers_app t1 t2 :
  go_receivers (t1 ++ t2) = go_receivers t1 ++ go_receivers t2.
Proof. unfold go_receivers. apply omap_app. Qed.

Lemma go_receivers_quiet t :
  forallb setup_step t = true → go_receivers t = [].
Proof.
  induction t as [|e t IH]; [done|]. simpl. intros Hs.
  apply andb_prop in Hs as [He Ht]. rewrite (IH Ht). by destruct e.
Qed.

Lemma go_receivers_db (t : list Event) : go_receivers (SDb <$> t) = [].
Proof. induction t as [|e t IH]; [done|]. exact IH. Qed.

Lemma go_receivers_listen (t : list (ListenEvent string)) :
  go_receivers (SListen <$> t) = [].
Proof. induction t as [|e t IH]; [done|]. exact IH. Qed.

Lemma calls_to_db c (t : list Event) : calls_to c (SDb <$> t) = 0.
Proof. unfold calls_to, callees. induction t as [|e t IH]; [done|]. exact IH. Qed.

Lemma calls_to_listen c (t : list (ListenEvent string)) :
  calls_to c (SListen <$> t) = 0.
Proof. unfold calls_to, callees. induction t as [|e t IH]; [done|]. exact IH. Qed.

Section MainFacts.

Context {S : Type} `{!Migrator S} {F : Type} `{!FileSystem F} `{!ConfigPackage}.

Implicit Types (env : Env) (cfg : AppConfig) (b : Boot S F).

Lemma on_db_run (c : M S unit) b :
  on_db c b
  = (inr tt, mkBoot (final (c (world b))) (files b) (assigned b),
     SDb <$> trace (c (world b))).
Proof. unfold on_db, final, trace. by destruct (c (world b)) as [[[] ?] ?]. Qed.

Lemma on_files_run {A} (c : Proc F (ListenEvent string) A) b :
  on_files c b
  = (ends (c (files b)), mkBoot (world b) (state (c (files b))) (assigned b),
     SListen <$> did (c (files b))).
Proof.
  unfold on_files, ends, state, did. by destruct (c (files b)) as [[? ?] ?].
Qed.

Lemma boot_phase env b :
  versionFlag env = false →
  ends (main_boot env b) = inr (Load (configFlag env) (version env))
  ∧ world (state (main_boot env b)) = world b
  ∧ files (state (main_boot env b)) = files b
  ∧ assigned (state (main_boot env b))
    = {[ "config" ]} ∪ ({[ "configFlag" ]} ∪ ({[ "versionFlag" ]} ∪ assigned b))
  ∧ forallb setup_step (did (main_boot env b)) = true.
Proof.
  intros Hv. destruct b as [w fs A].
  unfold main_boot. rewrite Hv.
  destruct (IsDev (Load (configFlag env) (version env))); repeat split.
Qed.

Lemma database_phase env cfg b :
  open_err env = None →
  sqldb_err env = None →
  ends (main_database env cfg b) = inr tt
  ∧ world (state (main_database env cfg b)) = world b
  ∧ files (state (main_database env cfg b)) = files b
  ∧ assigned (state (main_database env cfg b))
    = {[ "sqlDb" ]}
      ∪ ((if IsDev cfg then {[ "db" ]} ∪ ({[ "db" ]} ∪ ({[ "gormLogger" ]} ∪ assigned b))
          else {[ "db" ]} ∪ ({[ "gormLogger" ]} ∪ assigned b)))
  ∧ forallb setup_step (did (main_database env cfg b)) = true
  ∧ last (did (main_database env cfg b)) = Some (SDefer "sqlDb" "Close")
  ∧ calls_to "gorm.Open" (did (main_database env cfg b)) = 1.
Proof.
  intros Ho Hs. destruct b as [w fs A].
  unfold main_database. rewrite Ho, Hs.
  destruct (IsDev cfg); repeat split.
Qed.

Lemma wiring_phase cfg b :
  ends (main_wiring cfg b) = inr tt
  ∧ world (state (main_wiring cfg b)) = world b
  ∧ files (state (main_wiring cfg b)) = files b
  ∧ forallb plain_step (did (main_wiring cfg b)) = true
  ∧ head (callees (did (main_wiring cfg b)))
    = Some "repositories.NewAliasRepository".
Proof.
  destruct b as [w fs A].
  unfold main_wiring, main_services, main_jobs, main_routing, main_static.
  destruct (IsDev cfg), (LeaderboardEnabled cfg), (EnablePprof cfg),
    (String.eqb (SentryDsn cfg) ""); repeat split.
Qed.

(** The run of [main] when the version flag is off and the database
    connects: the five phases one after the other. *)
Lemma main_normal env b :
  versionFlag env = false →
  open_err env = None →
  sqldb_err env = None →
  let cfg := Load (configFlag env) (version env) in
  let b1 := state (main_boot env b) in
  let b2 := state (main_database env cfg b1) in
  let b3 := state (main_migrations cfg b2) in
  let b4 := state (main_wiring cfg b3) in
  main env b
  = (ends (main_listen cfg b4), state (main_listen cfg b4),
     did (main_boot env b) ++ did (main_database env cfg b1)
     ++ did (main_migrations cfg b2) ++ did (main_wiring cfg b3)
     ++ did (main_listen cfg b4)).
Proof.
  intros Hv Ho Hs cfg b1 b2 b3 b4. unfold main.
  destruct (boot_phase env b Hv) as (Hb & _).
  rewrite (bind_returns _ _ _ _ Hb). fold cfg b1.
  destruct (database_phase env cfg b1 Ho Hs) as (Hd & _).
  rewrite (bind_returns _ _ _ _ Hd). fold b2.
  assert (ends (main_migrations cfg b2) = inr tt) as Hm
    by (unfold main_migrations; by rewrite on_db_run).
  rewrite (bind_returns _ _ _ _ Hm). fold b3.
  destruct (wiring_phase cfg b3) as (Hw & _).
  rewrite (bind_returns _ _ _ _ Hw). fold b4.
  unfold ends, state, did; simpl. reflexivity.
Qed.

(** X12. With the version flag set, [main] prints the embedded version
    as its last act and exits with code 0: it has not loaded the
    configuration, not opened the database, started no goroutine and no
    listener, and left database and file system as they were. *)
Theorem main_version_flag env b :
  versionFlag env = true →
  let r := main env b in
  ends r = inl (Exited 0)
  ∧ last (did r) = Some (SPrint (version env))
  ∧ calls_to "conf.Load" (did r) = 0
  ∧ calls_to "gorm.Open" (did r) = 0
  ∧ forallb setup_step (did r) = true
  ∧ world (state r) = world b
  ∧ files (state r) = files b.
Proof.
  intros Hv r. subst r. destruct b as [w fs A].
  unfold main, main_boot. rewrite Hv. repeat split.
Qed.

(** X13. With the version flag off, an error of [gorm.Open] is logged
    and [main] dies with "could not open database"; an error of [db.DB()]
    is logged and [main] dies with "could not connect to database".  Either
    way the error line and the fatal line are the last two things it does,
    and before them it has not touched the database, started no goroutine
    and no listener. *)
Theorem main_database_failure env b e :
  versionFlag env = false →
  let r := main env b in
  (open_err env = Some e →
   ends r = inl (Died "could not open database")
   ∧ (∃ t, did r = t ++ [SLog LogError e; SLog LogFatal "could not open database"])
   ∧ forallb setup_step (did r) = true
   ∧ world (state r) = world b
   ∧ files (state r) = files b)
  ∧ (open_err env = None → sqldb_err env = Some e →
     ends r = inl (Died "could not connect to database")
     ∧ (∃ t, did r
             = t ++ [SLog LogError e; SLog LogFatal "could not connect to database"])
     ∧ forallb setup_step (did r) = true
     ∧ world (state r) = world b
     ∧ files (state r) = files b).
Proof.
  intros Hv r. subst r. unfold main.
  destruct (boot_phase env b Hv) as (Hb & Hw & Hf & _ & Hsetup).
  rewrite (bind_returns _ _ _ _ Hb).
  set (cfg := Load (configFlag env) (version env)).
  revert Hw Hf. generalize (state (main_boot env b)). intros [w1 fs1 A1]. simpl.
  intros <- <-. unfold ends at 1 3, state at 1 2 3 4, did at 1 2 3 4. simpl.
  split.
  - intros Ho. unfold main_database. rewrite Ho.
    (split; [reflexivity|]). (split; [simpl; ends_with|]).
    split; [|by split]. simpl. rewrite forallb_app, Hsetup. reflexivity.
  - intros Ho Hs. unfold main_database. rewrite Ho, Hs.
    destruct (IsDev cfg); (split; [reflexivity|]);
      (split; [simpl; ends_with|]);
      (split; [|by split]); simpl; rewrite forallb_app, Hsetup; reflexivity.
Qed.

(** The same run, with the migration pass and [listen] spelled out on the
    database and the file system [main] was started on. *)
Lemma main_normal_run env b :
  versionFlag env = false →
  open_err env = None →
  sqldb_err env = None →
  let cfg := Load (configFlag env) (version env) in
  let m := main_migrate registry (forMigrations cfg) (world b) in
  let l := listen "router" (ServerSection cfg) (UseTLS cfg) (files b) in
  let b1 := state (main_boot env b) in
  let b2 := state (main_database env cfg b1) in
  let b3 := mkBoot (final m) (files b2) (assigned b2) in
  ends (main env b) = ends l
  ∧ world (state (main env b)) = final m
  ∧ files (state (main env b)) = state l
  ∧ did (main env b)
    = did (main_boot env b) ++ did (main_database env cfg b1)
      ++ (SDb <$> trace m) ++ did (main_wiring cfg b3) ++ (SListen <$> did l).
Proof.
  intros Hv Ho Hs cfg m l b1 b2 b3.
  rewrite (main_normal env b Hv Ho Hs). fold cfg b1 b2.
  destruct (boot_phase env b Hv) as (_ & Hw1 & Hf1 & _).
  destruct (database_phase env cfg b1 Ho Hs) as (_ & Hw2 & Hf2 & _).
  fold b1 in Hw1, Hf1. fold b2 in Hw2, Hf2.
  assert (world b2 = world b) as Hwb by congruence.
  unfold main_migrations. rewrite (on_db_run _ b2).
  change (state (inr (), ?x, ?y)) with x.
  change (did (inr (), ?x, ?y)) with y.
  rewrite Hwb. fold m b3.
  destruct (wiring_phase cfg b3) as (_ & Hw4 & Hf4 & _).
  set (b4 := state (main_wiring cfg b3)) in *.
  assert (files b4 = files b) as Hfb by (rewrite Hf4; simpl; congruence).
  unfold main_listen. rewrite (on_files_run _ b4).
  unfold ends at 1, state at 1 2, did at 1 6. simpl.
  rewrite Hfb, Hw4. by fold l.
Qed.




Lemma leaderboard_calls_before_wiring env cfg b :
  versionFlag env = false →
  calls_to "services.NewLeaderboardService" (did (main_boot env b)) = 0
  ∧ calls_to "routes.NewLeaderboardHandler" (did (main_boot env b)) = 0
  ∧ calls_to "routes.NewNoopHandler" (did (main_boot env b)) = 0
  ∧ calls_to "services.NewLeaderboardService" (did (main_database env cfg b)) = 0
  ∧ calls_to "routes.NewLeaderboardHandler" (did (main_database env cfg b)) = 0
  ∧ calls_to "routes.NewNoopHandler" (did (main_database env cfg b)) = 0.
Proof.
  intros Hv. destruct b as [w fs A]. unfold main_boot, main_database.
  rewrite Hv.
  destruct (IsDev (Load (configFlag env) (version env))), (IsDev cfg),
    (open_err env), (sqldb_err env); repeat split.
Qed.

Lemma leaderboard_calls_in_wiring cfg b :
  calls_to "services.NewLeaderboardService" (did (main_wiring cfg b))
  = (if LeaderboardEnabled cfg then 1 else 0)
  ∧ bool_decide ("leaderboardService" ∈ go_receivers (did (main_wiring cfg b)))
    = LeaderboardEnabled cfg
  ∧ calls_to "routes.NewLeaderboardHandler" (did (main_wiring cfg b)) = 1
  ∧ calls_to "routes.NewNoopHandler" (did (main_wiring cfg b)) = 1.
Proof.
  destruct b as [w fs A].
  unfold main_wiring, main_services, main_jobs, main_routing, main_static.
  destruct (IsDev cfg), (LeaderboardEnabled cfg), (EnablePprof cfg),
    (String.eqb (SentryDsn cfg) ""); repeat split.
Qed.

(** X16. In a start-up whose database connects, the leaderboard service
    is constructed exactly when the leaderboard is switched on, and its
    scheduler goroutine is started exactly then too; but both handler
    constructors handed to the ternary operator, the leaderboard one and the
    no-op one, are called once on every start, whatever the switch says. *)
Theorem leaderboard_switch env b :
  versionFlag env = false →
  open_err env = None →
  sqldb_err env = None →
  let cfg := Load (configFlag env) (version env) in
  let t := did (main env b) in
  calls_to "services.NewLeaderboardService" t
  = (if LeaderboardEnabled cfg then 1 else 0)
  ∧ bool_decide ("leaderboardService" ∈ go_receivers t) = LeaderboardEnabled cfg
  ∧ calls_to "routes.NewLeaderboardHandler" t = 1
  ∧ calls_to "routes.NewNoopHandler" t = 1.
Proof.
  intros Hv Ho Hs cfg t. subst t.
  destruct (main_normal_run env b Hv Ho Hs) as (_ & _ & _ & ->). fold cfg.
  destruct (boot_phase env b Hv) as (_ & _ & _ & _ & Hs1).
  set (b1 := state (main_boot env b)) in *.
  destruct (database_phase env cfg b1 Ho Hs) as (_ & _ & _ & _ & Hs2 & _).
  destruct (leaderboard_calls_before_wiring env cfg b Hv)
    as (Ha1 & Ha2 & Ha3 & _).
  destruct (leaderboard_calls_before_wiring env cfg b1 Hv)
    as (_ & _ & _ & Hb1 & Hb2 & Hb3).
  set (b2 := state (main_database env cfg b1)) in *.
  set (b3 := mkBoot _ _ _).
  destruct (leaderboard_calls_in_wiring cfg b3) as (Hc1 & Hc2 & Hc3 & Hc4).
  rewrite !calls_to_app, !go_receivers_app, !calls_to_db, !calls_to_listen.
  rewrite go_receivers_db, go_receivers_listen.
  rewrite (go_receivers_quiet _ Hs1), (go_receivers_quiet _ Hs2).
  rewrite Ha1, Ha2, Ha3, Hb1, Hb2, Hb3, Hc1, Hc3, Hc4. simpl.
  rewrite app_nil_r, Hc2.
  repeat split; lia.
Qed.



End MainFacts.

(** ** The further properties on concrete runs *)

Lemma rank_drop_failure_is_absorbed_witness :
  let r := drop_rank_column_f (Migrator0:=ro_Migrator) cfg0 db_rank in
  recorded drop_rank_column_name db_rank = false
  ∧ HasTable (Migrator:=ro_Migrator) LeaderboardItem (schema db_rank)
    && HasColumn (Migrator:=ro_Migrator) LeaderboardItem "rank" (schema db_rank)
    = true
  ∧ (DropColumn (Migrator:=ro_Migrator) LeaderboardItem "rank" (schema db_rank)).2
    = Some read_only
  ∧ result r = None
  ∧ schema (final r) = schema db_rank.
Proof.
  intros r.
  assert (recorded drop_rank_column_name db_rank = false)
    as Hrec by (vm_compute; reflexivity).
  assert (HasTable (Migrator:=ro_Migrator) LeaderboardItem (schema db_rank)
          && HasColumn (Migrator:=ro_Migrator) LeaderboardItem "rank"
               (schema db_rank) = true)
    as Hg by (vm_compute; reflexivity).
  assert ((DropColumn (Migrator:=ro_Migrator) LeaderboardItem "rank"
             (schema db_rank)).2 = Some read_only)
    as He by reflexivity.
  split; [exact Hrec|]. split; [exact Hg|]. split; [exact He|].
  destruct (rank_drop_failure_is_absorbed (Migrator0:=ro_Migrator)
              cfg0 db_rank read_only Hrec Hg He) as (_ & Hnil & Hschema).
  split; [exact Hnil|exact Hschema].
Defined.

Lemma info_line_announces_mutation_witness :
  drop_diagnostics_user ∈ all_migrations registry
  ∧ quiet is_mutation (trace (drop_diagnostics_user_f cfg0 db_done)) = true
  ∧ quiet is_info (trace (drop_diagnostics_user_f cfg0 db_done)) = true
  ∧ quiet is_mutation (trace (drop_diagnostics_user_f cfg0 db_legacy)) = false
  ∧ ∃ t1 t2,
      trace (drop_diagnostics_user_f cfg0 db_legacy)
      = t1 ++ EvLog Info ("running migration '" +:+ drop_diagnostics_user_name +:+ "'")
           :: t2
      ∧ quiet is_mutation t1 = true
      ∧ quiet is_info t1 = true
      ∧ quiet is_info t2 = true.
Proof.
  assert (drop_diagnostics_user ∈ all_migrations (registry (S:=gmap string Table)))
    as Hm by apply list_elem_of_here.
  assert (quiet is_mutation (trace (drop_diagnostics_user_f cfg0 db_done)) = true)
    as Hq by (vm_compute; reflexivity).
  assert (quiet is_mutation (trace (drop_diagnostics_user_f cfg0 db_legacy)) = false)
    as Hn by (vm_compute; reflexivity).
  split; [exact Hm|]. split; [exact Hq|].
  split; [exact (proj1 (info_line_announces_mutation
                          drop_diagnostics_user cfg0 db_done Hm) Hq)|].
  split; [exact Hn|].
  exact (proj2 (info_line_announces_mutation
                  drop_diagnostics_user cfg0 db_legacy Hm) Hn).
Defined.

Lemma ledger_calls_use_own_key_witness :
  drop_rank_column ∈ all_migrations registry
  ∧ drop_diagnostics_user_name ≠ drop_rank_column_name
  ∧ only_key drop_rank_column_name (trace (drop_rank_column_f cfg0 db_rank)) = true
  ∧ recorded drop_diagnostics_user_name (final (drop_rank_column_f cfg0 db_rank))
    = recorded drop_diagnostics_user_name db_rank.
Proof.
  assert (drop_rank_column ∈ all_migrations (registry (S:=gmap string Table)))
    as Hm by apply list_elem_of_further, list_elem_of_here.
  assert (drop_diagnostics_user_name ≠ drop_rank_column_name)
    as Hne by discriminate.
  split; [exact Hm|]. split; [exact Hne|].
  destruct (ledger_calls_use_own_key drop_rank_column cfg0 db_rank Hm)
    as (Hkey & _ & Hother).
  split; [exact Hkey|exact (Hother drop_diagnostics_user_name Hne)].
Defined.

Lemma listen_dies_only_on_stale_socket_witness :
  let r := listen "router" srv_socket true fs_stuck in
  ends r ≠ inl Blocked
  ∧ jobs (did r) = []
  ∧ ∃ e, last (did r) = Some (LFatal e).
Proof.
  intros r.
  assert (ends r ≠ inl Blocked) as Hne by (vm_compute; discriminate).
  split; [exact Hne|].
  exact (proj2 (listen_dies_only_on_stale_socket "router" srv_socket true fs_stuck)
           Hne).
Defined.


Lemma main_version_flag_witness :
  let r := main (H:=pkg_default) env_version (fresh_process db_legacy fs_stuck) in
  versionFlag env_version = true
  ∧ ends r = inl (Exited 0)
  ∧ last (did r) = Some (SPrint "2.5.2")
  ∧ world (state r) = db_legacy.
Proof.
  intros r.
  assert (versionFlag env_version = true) as Hv by reflexivity.
  split; [exact Hv|].
  destruct (main_version_flag (H:=pkg_default) env_version
              (fresh_process db_legacy fs_stuck) Hv)
    as (Hend & Hlast & _ & _ & _ & Hw & _).
  split; [exact Hend|]. split; [exact Hlast|exact Hw].
Defined.

Lemma main_database_failure_witness :
  let r := main (H:=pkg_default) env_no_db (fresh_process db_legacy fs_clean) in
  versionFlag env_no_db = false
  ∧ open_err env_no_db = Some "unable to open database file"
  ∧ ends r = inl (Died "could not open database")
  ∧ world (state r) = db_legacy
  ∧ let r' := main (H:=pkg_default) env_no_handle
                (fresh_process db_legacy fs_clean) in
    open_err env_no_handle = None
    ∧ sqldb_err env_no_handle = Some "sql: database is closed"
    ∧ ends r' = inl (Died "could not connect to database")
    ∧ world (state r') = db_legacy.
Proof.
  intros r.
  assert (versionFlag env_no_db = false) as Hv by reflexivity.
  assert (open_err env_no_db = Some "unable to open database file")
    as Ho by reflexivity.
  split; [exact Hv|]. split; [exact Ho|].
  destruct (proj1 (main_database_failure (H:=pkg_default) env_no_db
                     (fresh_process db_legacy fs_clean) _ Hv) Ho)
    as (Hend & _ & _ & Hw & _).
  split; [exact Hend|]. split; [exact Hw|].
  intros r'.
  assert (versionFlag env_no_handle = false) as Hv' by reflexivity.
  assert (open_err env_no_handle = None) as Ho' by reflexivity.
  assert (sqldb_err env_no_handle = Some "sql: database is closed")
    as Hs' by reflexivity.
  split; [exact Ho'|]. split; [exact Hs'|].
  destruct (proj2 (main_database_failure (H:=pkg_default) env_no_handle
                     (fresh_process db_legacy fs_clean) _ Hv') Ho' Hs')
    as (Hend' & _ & _ & Hw' & _).
  split; [exact Hend'|exact Hw'].
Defined.



Lemma leaderboard_switch_witness :
  let t := did (main (H:=pkg_no_leaderboard) env_serve
                  (fresh_process db_legacy fs_clean)) in
  versionFlag env_serve = false
  ∧ open_err env_serve = None
  ∧ sqldb_err env_serve = None
  ∧ calls_to "services.NewLeaderboardService" t = 0
  ∧ bool_decide ("leaderboardService" ∈ go_receivers t) = false
  ∧ calls_to "routes.NewLeaderboardHandler" t = 1
  ∧ calls_to "routes.NewNoopHandler" t = 1.
Proof.
  intros t.
  assert (versionFlag env_serve = false) as Hv by reflexivity.
  assert (open_err env_serve = None) as Ho by reflexivity.
  assert (sqldb_err env_serve = None) as Hs by reflexivity.
  split; [exact Hv|]. split; [exact Ho|]. split; [exact Hs|].
  exact (leaderboard_switch (H:=pkg_no_leaderboard) env_serve
           (fresh_process db_legacy fs_clean) Hv Ho Hs).
Defined.
